(** * The multi-store forecast manager

    A shallow embedding of [MultiStoreForecastManager] (src/script_4.py):
    the store registry with [add_new_store], the per-store forecast
    ([get_store_forecast], [_generate_store_specific_forecast] and its
    helpers), the purchase consolidation
    ([get_consolidation_opportunities]), the forecast of the network
    ([get_network_forecast]) and the performance metrics
    ([get_performance_metrics]).

    Modelling conventions.
    - Python [float]s are idealised as exact rationals ([Q]); [int(x)]
      is truncation towards zero.
    - Configuration objects are JSON values; a [dict] is a [gmap] keyed by
      strings.  Store configurations are mutable objects, kept in a heap
      and referred to by location, so that aliasing between a caller's
      dictionary and the registry is visible.
    - The global generator [np.random] is modelled by the tape of raw words
      it will deliver (the seed) and a cursor; the wall clock read by
      [datetime.now()] is modelled the same way.  Dates are proleptic
      Gregorian ordinals, as in [datetime.toordinal]; the calendar is taken
      unbounded (Python's own stops at year 9999).
    - A Python call either returns or raises; effects performed before a
      [raise] stay in the state.
    - The manager is built with its default path, so the file it loads
      is the file [_save_config] writes.  The order in which Python
      iterates the registry is not recorded by the map of the model: the
      functions that iterate take the list of its keys. *)

From Stdlib Require Import ZArith QArith Qround String List Sorted Lia Lqa.
From stdpp Require Import base gmap strings list.

Open Scope Z_scope.

(** ** Values and exceptions *)

#[warnings="-register-all"]
Inductive value :=
| VNone
| VBool (b : bool)
| VInt (n : Z)
| VNum (x : Q)
| VStr (s : string)
| VList (l : list value)
| VDict (d : gmap string value).

(** A dictionary object, e.g. one store's configuration. *)
Abbreviation dict := (gmap string value).

Inductive exn :=
| ValueError (msg : string)
| KeyError (key : string)
| TypeError
| AttributeError
| OSError.

Inductive result (A : Type) :=
| Ok (a : A)
| Raise (e : exn).
Arguments Ok {A} a.
Arguments Raise {A} e.

(** Python's truth value of an object, as used by [not x]. *)
Definition truthy (v : value) : bool :=
  match v with
  | VNone => false
  | VBool b => b
  | VInt n => negb (n =? 0)
  | VNum x => negb (Qnum x =? 0)
  | VStr s => negb (bool_decide (s = EmptyString))
  | VList l => negb (bool_decide (length l = 0%nat))
  | VDict d => negb (bool_decide (size d = 0%nat))
  end.

(** Numeric coercion performed by the arithmetic operators ([bool] is a
    subclass of [int]). *)
Definition as_num (v : value) : option Q :=
  match v with
  | VBool b => Some (inject_Z (if b then 1 else 0))
  | VInt n => Some (inject_Z n)
  | VNum x => Some x
  | _ => None
  end.

(** The integers accepted by [range]. *)
Definition as_int (v : value) : option Z :=
  match v with
  | VBool b => Some (if b then 1 else 0)
  | VInt n => Some n
  | _ => None
  end.

(** [v == s] for a string literal [s]. *)
Definition eq_str (v : value) (s : string) : bool :=
  match v with
  | VStr t => bool_decide (t = s)
  | _ => false
  end.

(** [d.get(k, default)]. *)
Definition dict_get (d : dict) (k : string) (dflt : value) : value :=
  default dflt (d !! k).

(** [int(x)] on a float. *)
Definition py_int (x : Q) : Z := Z.quot (Qnum x) (Z.pos (Qden x)).

Definition Qltb (x y : Q) : bool :=
  (Qnum x * Z.pos (Qden y) <? Qnum y * Z.pos (Qden x)).

(** ** The calendar of [datetime] *)

Module Calendar.

Definition DAYS_IN_MONTH : list Z :=
  [-1; 31; 28; 31; 30; 31; 30; 31; 31; 30; 31; 30; 31].

Definition DAYS_BEFORE_MONTH : list Z :=
  [-1; 0; 31; 59; 90; 120; 151; 181; 212; 243; 273; 304; 334].

Definition tbl (t : list Z) (i : Z) : Z := nth (Z.to_nat i) t 0.

Definition b2z (b : bool) : Z := if b then 1 else 0.

(** Month and day from the day-of-year [n] (0-based). *)
Definition month_day (leapyear : bool) (n : Z) : Z * Z :=
  let month := Z.shiftr (n + 50) 5 in
  let preceding := tbl DAYS_BEFORE_MONTH month + b2z ((2 <? month) && leapyear) in
  if n <? preceding then
    let month := month - 1 in
    let preceding :=
      preceding - (tbl DAYS_IN_MONTH month + b2z ((month =? 2) && leapyear)) in
    (month, n - preceding + 1)
  else (month, n - preceding + 1).

(** [_ord2ymd]: ordinal to (year, month, day), 0001-01-01 being day 1. *)
Definition ord2ymd (ordinal : Z) : Z * Z * Z :=
  let n := ordinal - 1 in
  let n400 := n / 146097 in
  let n := n mod 146097 in
  let year := n400 * 400 + 1 in
  let n100 := n / 36524 in
  let n := n mod 36524 in
  let n4 := n / 1461 in
  let n := n mod 1461 in
  let n1 := n / 365 in
  let n := n mod 365 in
  let year := year + n100 * 100 + n4 * 4 + n1 in
  if (n1 =? 4) || (n100 =? 4) then (year - 1, 12, 31)
  else
    let leapyear := (n1 =? 3) && (negb (n4 =? 24) || (n100 =? 3)) in
    let '(month, day) := month_day leapyear n in
    (year, month, day).

Definition year (date : Z) : Z := fst (fst (ord2ymd date)).
Definition month (date : Z) : Z := snd (fst (ord2ymd date)).
Definition day (date : Z) : Z := snd (ord2ymd date).

(** [date.weekday()]: Monday is 0. *)
Definition weekday (date : Z) : Z := (date + 6) mod 7.

(** [date + timedelta(days=d)]. *)
Definition add_days (date d : Z) : Z := date + d.

Definition digit (n : Z) : string :=
  String (Ascii.ascii_of_nat (48 + Z.to_nat (n mod 10))) EmptyString.

Fixpoint digits (width : nat) (n : Z) : string :=
  match width with
  | O => EmptyString
  | S w => digits w (n / 10) +:+ digit n
  end.

(** ['%m-%d'] and ['%Y-%m-%d']: zero-padded decimal fields. *)
Definition strftime_md (date : Z) : string :=
  digits 2 (month date) +:+ "-" +:+ digits 2 (day date).

Definition strftime_ymd (date : Z) : string :=
  digits 4 (year date) +:+ "-" +:+ strftime_md date.

(** ['%A'] in the default locale. *)
Definition strftime_A (date : Z) : string :=
  nth (Z.to_nat (weekday date))
    ["Monday"; "Tuesday"; "Wednesday"; "Thursday"; "Friday"; "Saturday"; "Sunday"]
    EmptyString.

End Calendar.

(** ** The state of the process and the monad of Python calls *)

Definition loc := positive.

Inductive level := INFO | WARNING | ERROR.

(** One record emitted through [logger]; [cause] is the exception
    interpolated into the message, if any. *)
Record log_record := mkLog {
  lvl : level;
  msg : string;
  cause : option exn
}.

Record state := mkState {
  heap : gmap loc dict;            (* the dictionary objects *)
  stores : gmap string loc;        (* self.stores_config['stores'] *)
  global_settings : dict;          (* self.stores_config['global_settings'] *)
  rng_tape : nat -> Z;             (* raw words np.random will deliver *)
  rng_pos : nat;
  clock_tape : nat -> Z;           (* dates datetime.now() will return *)
  clock_pos : nat;
  disk_writable : bool;
  disk : option (gmap string dict * dict);   (* stores_config.json *)
  log : list log_record
}.

Definition set_heap (h : gmap loc dict) (st : state) : state :=
  mkState h (stores st) (global_settings st) (rng_tape st) (rng_pos st)
    (clock_tape st) (clock_pos st) (disk_writable st) (disk st) (log st).

Definition set_stores (s : gmap string loc) (st : state) : state :=
  mkState (heap st) s (global_settings st) (rng_tape st) (rng_pos st)
    (clock_tape st) (clock_pos st) (disk_writable st) (disk st) (log st).

Definition set_rng_pos (n : nat) (st : state) : state :=
  mkState (heap st) (stores st) (global_settings st) (rng_tape st) n
    (clock_tape st) (clock_pos st) (disk_writable st) (disk st) (log st).

Definition set_clock_pos (n : nat) (st : state) : state :=
  mkState (heap st) (stores st) (global_settings st) (rng_tape st) (rng_pos st)
    (clock_tape st) n (disk_writable st) (disk st) (log st).

Definition set_disk (d : option (gmap string dict * dict)) (st : state) : state :=
  mkState (heap st) (stores st) (global_settings st) (rng_tape st) (rng_pos st)
    (clock_tape st) (clock_pos st) (disk_writable st) d (log st).

Definition set_log (l : list log_record) (st : state) : state :=
  mkState (heap st) (stores st) (global_settings st) (rng_tape st) (rng_pos st)
    (clock_tape st) (clock_pos st) (disk_writable st) (disk st) l.

Definition M (A : Type) : Type := state -> result A * state.

Definition ret {A} (a : A) : M A := fun st => (Ok a, st).

Definition raise {A} (e : exn) : M A := fun st => (Raise e, st).

Definition bind {A B} (m : M A) (k : A -> M B) : M B :=
  fun st =>
    match m st with
    | (Ok a, st') => k a st'
    | (Raise e, st') => (Raise e, st')
    end.

(** [try: m except Exception as e: h e]. *)
Definition try_except {A} (m : M A) (h : exn -> M A) : M A :=
  fun st =>
    match m st with
    | (Ok a, st') => (Ok a, st')
    | (Raise e, st') => h e st'
    end.

Declare Scope py_scope.
Delimit Scope py_scope with py.
Notation "x <- m ;; k" := (bind m (fun x => k))
  (at level 100, m at level 99, k at level 200, right associativity) : py_scope.
Notation "m ;; k" := (bind m (fun _ => k))
  (at level 100, k at level 200, right associativity) : py_scope.
Open Scope py_scope.

Fixpoint foldM {A B} (f : B -> A -> M B) (l : list A) (acc : B) : M B :=
  match l with
  | [] => ret acc
  | x :: xs => acc' <- f acc x ;; foldM f xs acc'
  end.

(** [range(n)]. *)
Definition py_range (n : Z) : list Z := map Z.of_nat (seq 0 (Z.to_nat n)).

(** *** Primitive effects *)

(** The dictionary a reference points to; anything else is not a mapping. *)
Definition deref (r : loc) : M dict :=
  fun st =>
    match heap st !! r with
    | Some d => (Ok d, st)
    | None => (Raise TypeError, st)
    end.

(** [obj[k] = v] on the dictionary at [r]. *)
Definition setitem (r : loc) (k : string) (v : value) : M unit :=
  d <- deref r ;;
  fun st => (Ok tt, set_heap (<[r := <[k := v]> d]> (heap st)) st).

Definition logger (l : level) (m : string) (c : option exn) : M unit :=
  fun st => (Ok tt, set_log (log st ++ [mkLog l m c]) st).

(** [np.random.randint(low, high)]: an integer of [[low, high)]. *)
Definition randint (low high : Z) : M Z :=
  fun st =>
    if low <? high then
      (Ok (low + rng_tape st (rng_pos st) mod (high - low)),
       set_rng_pos (S (rng_pos st)) st)
    else (Raise (ValueError "low >= high"), st).

(** [np.random.uniform(low, high)]: [low + (high - low) * u] for a
    53-bit fraction [u] of [[0, 1)]. *)
Definition uniform (low high : Q) : M Q :=
  fun st =>
    let u := (rng_tape st (rng_pos st) mod 2 ^ 53) # (2 ^ 53) in
    (Ok (low + (high - low) * u)%Q, set_rng_pos (S (rng_pos st)) st).

(** [datetime.now()], observed through its date. *)
Definition now : M Z :=
  fun st => (Ok (clock_tape st (clock_pos st)), set_clock_pos (S (clock_pos st)) st).

(** [d[k]]. *)
Definition getitem (d : dict) (k : string) : M value :=
  match d !! k with
  | Some v => ret v
  | None => raise (KeyError k)
  end.

(** [v.get(k, default)]; only dictionaries have the method. *)
Definition method_get (v : value) (k : string) (dflt : value) : M value :=
  match v with
  | VDict d => ret (dict_get d k dflt)
  | _ => raise AttributeError
  end.

Definition num (v : value) : M Q :=
  match as_num v with
  | Some x => ret x
  | None => raise TypeError
  end.

Fixpoint for_each {A} (l : list A) (body : A -> M unit) : M unit :=
  match l with
  | [] => ret tt
  | x :: xs => body x ;; for_each xs body
  end.

(** [k in d]. *)
Definition contains (d : dict) (k : string) : bool :=
  match d !! k with
  | Some _ => true
  | None => false
  end.

(** ** Store registry *)

Definition table (items : list (string * Q)) : value :=
  VDict (list_to_map (map (fun kv => (fst kv, VNum (snd kv))) items)).

Definition default_store (name address type size_category start_ end_
    target_audience : string) (avg_daily_visitors : Z)
    (winter spring summer autumn womens valentines nauryz sensitivity : Q)
    (horizon : Z) (safety : Q) : dict :=
  list_to_map
    [("name", VStr name);
     ("address", VStr address);
     ("type", VStr type);
     ("size_category", VStr size_category);
     ("opening_hours",
      VDict (list_to_map [("start", VStr start_); ("end", VStr end_)]));
     ("target_audience", VStr target_audience);
     ("avg_daily_visitors", VInt avg_daily_visitors);
     ("seasonal_multipliers",
      table [("winter", winter); ("spring", spring);
             ("summer", summer); ("autumn", autumn)]);
     ("holiday_multipliers",
      table [("WOMENS_DAY", womens); ("VALENTINES", valentines);
             ("NAURYZ", nauryz)]);
     ("weather_sensitivity", VNum sensitivity);
     ("forecast_horizon_days", VInt horizon);
     ("safety_stock_ratio", VNum safety);
     ("active", VBool true)].

(** [_create_default_config]: the three stores and the global settings. *)
Definition _create_default_config : gmap string dict * dict :=
  (list_to_map
     [("almaty_1",
       default_store "Алматы ЦУМ" "пр. Абылай хана, 62" "premium" "large"
         "09:00" "22:00" "premium_customers" 200
         0.8 1.2 1.0 1.1 4.5 2.0 2.2 0.3 14 1.2);
      ("almaty_2",
       default_store "Алматы Мега" "ул. Розыбакиева, 247а" "mass_market" "large"
         "10:00" "22:00" "families" 350
         0.9 1.3 1.1 1.0 4.0 1.8 2.5 0.2 7 1.5);
      ("almaty_3",
       default_store "Алматы Dostyk Plaza" "пр. Достык, 111" "premium" "medium"
         "10:00" "21:00" "business_customers" 150
         0.7 1.1 0.9 1.2 3.8 2.2 1.8 0.4 10 1.3)],
   list_to_map
     [("model_retrain_frequency_days", VInt 7);
      ("anomaly_detection_threshold", VNum 2.5);
      ("min_historical_data_days", VInt 30);
      ("max_forecast_horizon_days", VInt 30);
      ("default_safety_stock_ratio", VNum 1.2);
      ("currency", VStr "KZT");
      ("timezone", VStr "Asia/Almaty")]).

(** [_load_stores_config]: the configuration file, created with the
    defaults when absent. *)
Definition _load_stores_config : M (gmap string dict * dict) :=
  fun st =>
    match disk st with
    | Some config => (Ok config, st)
    | None =>
        if disk_writable st
        then (Ok _create_default_config, set_disk (Some _create_default_config) st)
        else (Raise OSError, st)
    end.

(** One fresh object per loaded store. *)
Definition alloc_stores (configs : gmap string dict)
  : gmap loc dict * gmap string loc :=
  foldr (fun kd hs =>
           let r := Pos.of_succ_nat (size (fst hs)) in
           (<[r := snd kd]> (fst hs), <[fst kd := r]> (snd hs)))
        (∅, ∅) (map_to_list configs).

(** [__init__]. *)
Definition __init__ : M unit :=
  config <- _load_stores_config ;;
  fun st =>
    let hs := alloc_stores (fst config) in
    (Ok tt,
     mkState (fst hs) (snd hs) (snd config) (rng_tape st) (rng_pos st)
       (clock_tape st) (clock_pos st) (disk_writable st) (disk st) (log st)).

(** What [json.dump(self.stores_config, f)] writes. *)
Definition snapshot (st : state) : gmap string dict * dict :=
  (omap (fun r => heap st !! r) (stores st), global_settings st).

Definition _save_config : M unit :=
  try_except
    (fun st =>
       if disk_writable st
       then (Ok tt, set_disk (Some (snapshot st)) st)
       else (Raise OSError, st))
    (fun e => logger ERROR "Ошибка сохранения конфигурации: " (Some e)).

Definition required_fields : list string :=
  ["name"; "address"; "type"; "size_category";
   "target_audience"; "avg_daily_visitors"].

Definition default_values : list (string * value) :=
  [("seasonal_multipliers",
    table [("winter", 0.9%Q); ("spring", 1.1%Q);
           ("summer", 1.0%Q); ("autumn", 1.0%Q)]);
   ("holiday_multipliers",
    table [("WOMENS_DAY", 4.0%Q); ("VALENTINES", 1.8%Q); ("NAURYZ", 2.0%Q)]);
   ("weather_sensitivity", VNum 0.25);
   ("forecast_horizon_days", VInt 7);
   ("safety_stock_ratio", VNum 1.2);
   ("active", VBool true)].

(** [self.stores_config['stores'][store_id] = store_config]: the registry
    keeps the reference it is given. *)
Definition register (store_id : string) (store_config : loc) : M unit :=
  fun st => (Ok tt, set_stores (<[store_id := store_config]> (stores st)) st).

(** [add_new_store(store_id, store_config)]; [store_config] is the
    caller's dictionary object. *)
Definition add_new_store (store_id : string) (store_config : loc) : M bool :=
  try_except
    (for_each required_fields (fun field =>
       d <- deref store_config ;;
       if contains d field then ret tt
       else raise (ValueError ("Отсутствует обязательное поле: " +:+ field))) ;;
     for_each default_values (fun kv =>
       d <- deref store_config ;;
       if contains d (fst kv) then ret tt
       else setitem store_config (fst kv) (snd kv)) ;;
     register store_id store_config ;;
     _save_config ;;
     logger INFO ("Добавлен новый магазин: " +:+ store_id) None ;;
     ret true)
    (fun e =>
       logger ERROR ("Ошибка добавления магазина " +:+ store_id +:+ ": ") (Some e) ;;
       ret false).

(** ** Forecast generator *)

(** One row of the forecast table; the fields carry the names of the
    local variables the columns are filled from. *)
Record ForecastRow := mkRow {
  row_date : string;            (* 'Дата' *)
  row_weekday : string;         (* 'День_недели' *)
  row_store : string;           (* 'Магазин' *)
  row_store_name : value;       (* 'Название_магазина' *)
  row_sku : string;             (* 'SKU' *)
  final_demand : Z;             (* 'Прогноз_спроса' *)
  current_stock : Z;            (* 'Текущий_остаток' *)
  recommended_purchase : Z;     (* 'Рекомендация_закупки' *)
  priority : string;            (* 'Приоритет' *)
  seasonal_mult : value;        (* 'Сезонный_коэф' *)
  holiday_mult : value;         (* 'Праздничный_коэф' *)
  weather_mult : Q              (* 'Погодный_коэф' *)
}.

(** A [pd.DataFrame] of forecast rows.  A frame built from nothing has no
    columns at all, which [groupby] distinguishes from a frame with the
    columns and no rows. *)
Inductive DataFrame :=
| NoColumns
| Table (rows : list ForecastRow).

Definition pd_DataFrame (data : list ForecastRow) : DataFrame :=
  match data with
  | [] => NoColumns
  | _ => Table data
  end.

Definition frame_rows (df : DataFrame) : list ForecastRow :=
  match df with
  | NoColumns => []
  | Table rows => rows
  end.

(** [len(df)]. *)
Definition len (df : DataFrame) : nat := length (frame_rows df).

Definition premium_skus : list string :=
  ["Роза_Premium_80см"; "Пион_импорт"; "Орхидея_фаленопсис";
   "Лилия_ориенталь"; "Роза_Дэвид_Остин"; "Гортензия_крупная"].

Definition mass_market_skus : list string :=
  ["Роза_стандарт_60см"; "Тюльпан_стандарт"; "Хризантема_куст";
   "Гвоздика_стандарт"; "Альстромерия"; "Герберы_микс"].

Definition business_skus : list string :=
  ["Роза_бизнес_70см"; "Букет_корпоративный"; "Композиция_офис";
   "Роза_классик"; "Лилия_бизнес"; "Хризантема_одногол"].

Definition high : string := "Высокий".
Definition medium : string := "Средний".
Definition low : string := "Низкий".

(** [x in l] for integers. *)
Definition Z_in (x : Z) (l : list Z) : bool := existsb (Z.eqb x) l.

Definition _get_season (date : Z) : string :=
  let month := Calendar.month date in
  if Z_in month [12; 1; 2] then "winter"
  else if Z_in month [3; 4; 5] then "spring"
  else if Z_in month [6; 7; 8] then "summer"
  else "autumn".

Definition _get_holiday_multiplier (date : Z) (store_config : dict) : M value :=
  holiday_multipliers <- getitem store_config "holiday_multipliers" ;;
  womens_day <- method_get holiday_multipliers "WOMENS_DAY" (VNum 1.0) ;;
  valentines <- method_get holiday_multipliers "VALENTINES" (VNum 1.0) ;;
  nauryz <- method_get holiday_multipliers "NAURYZ" (VNum 1.0) ;;
  let holidays : dict :=
    list_to_map [("03-08", womens_day); ("02-14", valentines); ("03-21", nauryz)] in
  let date_str := Calendar.strftime_md date in
  ret (dict_get holidays date_str (VNum 1.0)).

Definition _get_weather_multiplier (store_config : dict) : M Q :=
  sensitivity <- num (dict_get store_config "weather_sensitivity" (VNum 0.25)) ;;
  weather_impact <- uniform (- sensitivity)%Q sensitivity ;;
  ret (1.0 + weather_impact)%Q.

(** The assortment and the base-demand range of a store type. *)
Definition assortment (store_type : value) : list string * (Z * Z) :=
  if eq_str store_type "premium" then (premium_skus, (15, 40))
  else if eq_str store_type "mass_market" then (mass_market_skus, (25, 60))
  else (business_skus, (10, 35)).

Definition classify (recommended_purchase final_demand : Z) : string :=
  if recommended_purchase >? final_demand then high
  else if Qltb (inject_Z final_demand * 0.5) (inject_Z recommended_purchase)
  then medium
  else low.

(** The body of the inner loop of [_generate_store_specific_forecast]:
    the row of one SKU on one date. *)
Definition forecast_sku (store_id : string) (store_config : dict)
    (base_demand_range : Z * Z) (date : Z) (sku : string) : M ForecastRow :=
  base_demand <- randint (fst base_demand_range) (snd base_demand_range) ;;
  let season := _get_season date in
  seasonal_multipliers <- getitem store_config "seasonal_multipliers" ;;
  seasonal_mult <- method_get seasonal_multipliers season (VNum 1.0) ;;
  let weekend_mult := if Z_in (Calendar.weekday date) [5; 6] then 1.3%Q else 1.0%Q in
  holiday_mult <- _get_holiday_multiplier date store_config ;;
  weather_mult <- _get_weather_multiplier store_config ;;
  seasonal <- num seasonal_mult ;;
  holiday <- num holiday_mult ;;
  let final_demand :=
    py_int (inject_Z base_demand * seasonal * weekend_mult * holiday * weather_mult) in
  current_stock <- randint 0 25 ;;
  safety_stock_ratio <- num (dict_get store_config "safety_stock_ratio" (VNum 1.2)) ;;
  let recommended_purchase :=
    Z.max 0 (py_int (inject_Z final_demand * safety_stock_ratio - inject_Z current_stock)) in
  let priority := classify recommended_purchase final_demand in
  name <- getitem store_config "name" ;;
  ret (mkRow (Calendar.strftime_ymd date) (Calendar.strftime_A date) store_id name
         sku final_demand current_stock recommended_purchase priority
         seasonal_mult holiday_mult weather_mult).

(** [self.stores_config['stores'][store_id]]. *)
Definition store_ref (store_id : string) : M loc :=
  fun st =>
    match stores st !! store_id with
    | Some r => (Ok r, st)
    | None => (Raise (KeyError store_id), st)
    end.

Definition _generate_store_specific_forecast (store_id : string)
    (forecast_days : Z) : M DataFrame :=
  r <- store_ref store_id ;;
  store_config <- deref r ;;
  let store_type := dict_get store_config "type" (VStr "mass_market") in
  let '(skus, base_demand_range) := assortment store_type in
  forecast_data <-
    foldM (fun forecast_data day =>
             today <- now ;;
             let date := Calendar.add_days today day in
             foldM (fun forecast_data sku =>
                      row <- forecast_sku store_id store_config base_demand_range date sku ;;
                      ret (forecast_data ++ [row]))
                   skus forecast_data)
          (py_range forecast_days) [] ;;
  ret (pd_DataFrame forecast_data).

Definition get_store_forecast (store_id : string) (forecast_days : option Z)
  : M DataFrame :=
  known <- (fun st => (Ok (bool_decide (is_Some (stores st !! store_id))), st)) ;;
  if negb known
  then raise (ValueError ("Магазин " +:+ store_id +:+ " не найден в конфигурации"))
  else
    r <- store_ref store_id ;;
    store_config <- deref r ;;
    if negb (truthy (dict_get store_config "active" (VBool true)))
    then
      logger WARNING ("Магазин " +:+ store_id +:+ " неактивен") None ;;
      ret NoColumns
    else
      forecast_days <-
        match forecast_days with
        | Some n => ret n
        | None =>
            match as_int (dict_get store_config "forecast_horizon_days" (VInt 7)) with
            | Some n => ret n
            | None => raise TypeError
            end
        end ;;
      _generate_store_specific_forecast store_id forecast_days.

(** ** Network aggregator: purchase consolidation *)

(** One row of [grouped]: a (date, SKU) group with its summed purchase
    recommendation and the number of rows (stores) it was built from. *)
Record Group := mkGroup {
  g_date : string;      (* 'Дата' *)
  g_sku : string;       (* 'SKU' *)
  g_purchase : Z;       (* 'Рекомендация_закупки', summed *)
  g_count : Z           (* 'Количество_магазинов' *)
}.

Record Opportunity := mkOpportunity {
  total_volume : Z;
  top_items : list Group;
  potential_savings : Q
}.

(** Order of the group keys: by date, then by SKU. *)
Definition key_compare (d1 s1 d2 s2 : string) : comparison :=
  match String.compare d1 d2 with
  | Eq => String.compare s1 s2
  | c => c
  end.

(** Account one row in the sorted table of groups. *)
Fixpoint add_row (r : ForecastRow) (groups : list Group) : list Group :=
  match groups with
  | [] => [mkGroup (row_date r) (row_sku r) (recommended_purchase r) 1]
  | g :: rest =>
      match key_compare (row_date r) (row_sku r) (g_date g) (g_sku g) with
      | Lt => mkGroup (row_date r) (row_sku r) (recommended_purchase r) 1 :: g :: rest
      | Eq => mkGroup (g_date g) (g_sku g)
                (g_purchase g + recommended_purchase r) (g_count g + 1) :: rest
      | Gt => g :: add_row r rest
      end
  end.

(** [df.groupby(['Дата', 'SKU']).agg({'Рекомендация_закупки': 'sum',
    'Магазин': 'count'}).reset_index()]: one row per key, keys ascending. *)
Definition groupby_agg (rows : list ForecastRow) : list Group :=
  fold_left (fun groups r => add_row r groups) rows [].

(** [series.unique()]: the distinct values in order of first appearance. *)
Definition unique (l : list string) : list string :=
  fold_left (fun seen x => if existsb (String.eqb x) seen then seen else seen ++ [x]) l [].

Fixpoint insert_desc (g : Group) (sorted : list Group) : list Group :=
  match sorted with
  | [] => [g]
  | h :: t =>
      if g_purchase h <=? g_purchase g then g :: h :: t
      else h :: insert_desc g t
  end.

(** [frame.nlargest(n, 'Рекомендация_закупки')]: the [n] rows of largest
    value, in descending order, earlier rows first among equals. *)
Definition nlargest (n : nat) (frame : list Group) : list Group :=
  take n (foldr insert_desc [] frame).

Definition sum_purchase (frame : list Group) : Z :=
  fold_right Z.add 0 (map g_purchase frame).

Definition get_consolidation_opportunities (forecast_df : DataFrame)
  : M (gmap string Opportunity) :=
  match forecast_df with
  | NoColumns => raise (KeyError "Дата")
  | Table rows =>
      let grouped := groupby_agg rows in
      let high_volume_items := List.filter (fun g => 50 <=? g_purchase g) grouped in
      ret (fold_left
             (fun consolidation_opportunities date =>
                let date_data :=
                  List.filter (fun g => String.eqb (g_date g) date) high_volume_items in
                match date_data with
                | [] => consolidation_opportunities
                | _ =>
                    <[date := mkOpportunity
                                (sum_purchase date_data)
                                (nlargest 5 date_data)
                                (inject_Z (sum_purchase date_data) * 0.05)%Q]>
                      consolidation_opportunities
                end)
             (unique (map g_date grouped)) ∅)
  end.

(** ** Network forecast and performance metrics *)

(** [pd.concat([a, b], ignore_index=True)]: a frame without columns adds
    nothing. *)
Definition pd_concat (a b : DataFrame) : DataFrame :=
  match a, b with
  | NoColumns, _ => b
  | _, NoColumns => a
  | Table x, Table y => Table (x ++ y)
  end.

(** [get_network_forecast(forecast_days=7)].  The registry dictionary is
    iterated in the order of its keys, which the map of the model does not
    record: [store_ids] is that order. *)
Definition get_network_forecast (store_ids : list string) (forecast_days : option Z)
  : M DataFrame :=
  let forecast_days := default 7 forecast_days in
  foldM (fun network_forecast store_id =>
           r <- store_ref store_id ;;
           store_config <- deref r ;;
           if truthy (dict_get store_config "active" (VBool true)) then
             store_forecast <- get_store_forecast store_id (Some forecast_days) ;;
             ret (pd_concat network_forecast store_forecast)
           else ret network_forecast)
        store_ids NoColumns.




(** ** Specification vocabulary *)

(** The store type a configuration declares. *)
Definition store_type (store_config : dict) : value :=
  dict_get store_config "type" (VStr "mass_market").




(** Every numeric entry of the table stored under [key] is non-negative. *)
Definition nonneg_table (c : dict) (key : string) : Prop :=
  forall t k v x,
    c !! key = Some (VDict t) -> t !! k = Some v -> as_num v = Some x -> (0 <= x)%Q.

(** Multipliers are non-negative and the weather sensitivity lies in [0,1]. *)
Definition sane_multipliers (c : dict) : Prop :=
  nonneg_table c "seasonal_multipliers"
  /\ nonneg_table c "holiday_multipliers"
  /\ forall s, as_num (dict_get c "weather_sensitivity" (VNum 0.25)) = Some s ->
               (0 <= s /\ s <= 1)%Q.



Definition nonneg_tableb (c : dict) (key : string) : bool :=
  match c !! key with
  | Some (VDict t) =>
      forallb (fun kx => match as_num (snd kx) with
                         | Some x => Qle_bool 0 x
                         | None => true
                         end) (map_to_list t)
  | _ => true
  end.

Definition sane_multipliersb (c : dict) : bool :=
  nonneg_tableb c "seasonal_multipliers"
  && nonneg_tableb c "holiday_multipliers"
  && match as_num (dict_get c "weather_sensitivity" (VNum 0.25)) with
     | Some s => Qle_bool 0 s && Qle_bool s 1
     | None => true
     end.

(** The dictionary once every absent item of [items] has been written. *)
Definition with_defaults (items : list (string * value)) (d : dict) : dict :=
  fold_left (fun d kv => if contains d (fst kv) then d else <[fst kv := snd kv]> d)
    items d.

(** The first required field a dictionary lacks. *)
Definition missing_field (cfg : dict) : option string :=
  List.find (fun field => negb (contains cfg field)) required_fields.

(** The same registry: the same objects with the same contents. *)
Definition same_registry (st1 st2 : state) : Prop :=
  heap st1 = heap st2 /\ stores st1 = stores st2.

(** The same seed: the generators will deliver the same words. *)
Definition same_seed (st1 st2 : state) : Prop :=
  forall n, rng_tape st1 (rng_pos st1 + n)%nat = rng_tape st2 (rng_pos st2 + n)%nat.

(** The clock will be read at the same dates. *)
Definition same_clock (st1 st2 : state) : Prop :=
  forall n, clock_tape st1 (clock_pos st1 + n)%nat = clock_tape st2 (clock_pos st2 + n)%nat.

(** Two processes that agree on everything a forecast reads. *)
Definition agree (st1 st2 : state) : Prop :=
  same_registry st1 st2 /\ same_seed st1 st2 /\ same_clock st1 st2.

(** A call whose result is a function of what the two processes agree on,
    and which keeps them in agreement. *)
Definition deterministic {A} (m : M A) : Prop :=
  forall st1 st2, agree st1 st2 ->
    fst (m st1) = fst (m st2) /\ agree (snd (m st1)) (snd (m st2)).

(** A call that changes neither the registry nor what the generator and
    the clock hold in store. *)
Definition frame {A} (m : M A) : Prop :=
  forall st,
    heap (snd (m st)) = heap st /\ stores (snd (m st)) = stores st
    /\ rng_tape (snd (m st)) = rng_tape st /\ clock_tape (snd (m st)) = clock_tape st.

(** The holiday factor the exact-date rule prescribes for [date], from the
    store's table of holiday multipliers. *)
Definition exact_date_factor (holiday_multipliers : dict) (date : Z) : value :=
  let m := Calendar.month date in
  let d := Calendar.day date in
  if (m =? 3) && (d =? 8) then dict_get holiday_multipliers "WOMENS_DAY" (VNum 1.0)
  else if (m =? 2) && (d =? 14) then dict_get holiday_multipliers "VALENTINES" (VNum 1.0)
  else if (m =? 3) && (d =? 21) then dict_get holiday_multipliers "NAURYZ" (VNum 1.0)
  else VNum 1.0.

(** What the body of the inner loop makes of its draws: the row of one
    SKU on [date], from a base demand, a weather draw [u] and a stock. *)
Inductive row_spec (store_config : dict) (base_demand_range : Z * Z) (date : Z)
    (row : ForecastRow) : Prop :=
| RowSpec (base : Z) (seasonal holiday sensitivity u ratio : Q)
    (Hbase : fst base_demand_range <= base < snd base_demand_range)
    (Hseasonal_table : exists t,
        store_config !! "seasonal_multipliers" = Some (VDict t)
        /\ seasonal_mult row = dict_get t (_get_season date) (VNum 1.0))
    (Hseasonal : as_num (seasonal_mult row) = Some seasonal)
    (Hholiday_table : exists t,
        store_config !! "holiday_multipliers" = Some (VDict t)
        /\ holiday_mult row = exact_date_factor t date)
    (Hholiday : as_num (holiday_mult row) = Some holiday)
    (Hsensitivity :
        as_num (dict_get store_config "weather_sensitivity" (VNum 0.25)) = Some sensitivity)
    (Hu : (0 <= u)%Q /\ (u < 1)%Q)
    (Hweather :
        weather_mult row = (1.0 + (- sensitivity + (sensitivity - - sensitivity) * u))%Q)
    (Hdemand :
        final_demand row =
        py_int (inject_Z base * seasonal
                * (if Z_in (Calendar.weekday date) [5; 6] then 1.3 else 1.0)
                * holiday * weather_mult row))
    (Hstock : 0 <= current_stock row < 25)
    (Hratio :
        as_num (dict_get store_config "safety_stock_ratio" (VNum 1.2)) = Some ratio)
    (Hpurchase :
        recommended_purchase row =
        Z.max 0 (py_int (inject_Z (final_demand row) * ratio - inject_Z (current_stock row))))
    (Hpriority : priority row = classify (recommended_purchase row) (final_demand row)).

(** The two loops of [_generate_store_specific_forecast], over the SKUs
    of one date and over the days, with the rows accumulated so far. *)
Definition inner_loop (store_id : string) (store_config : dict)
    (range : Z * Z) (date : Z) (skus : list string) :=
  foldM (fun forecast_data sku =>
           row <- forecast_sku store_id store_config range date sku ;;
           ret (forecast_data ++ [row])) skus.

Definition outer_loop (store_id : string) (store_config : dict)
    (range : Z * Z) (skus : list string) (days : list Z) :=
  foldM (fun forecast_data day =>
           today <- now ;;
           inner_loop store_id store_config range (Calendar.add_days today day)
             skus forecast_data) days.

(** A row the generator can produce for this configuration. *)
Definition generated (store_config : dict) (range : Z * Z) (row : ForecastRow) : Prop :=
  exists date, row_spec store_config range date row.

(** The summed purchase recommendation of the rows of one (date, SKU). *)
Definition key_eqb (date sku : string) (r : ForecastRow) : bool :=
  String.eqb (row_date r) date && String.eqb (row_sku r) sku.


(** The groups that qualify for consolidation on [date]. *)
Definition qualifying (rows : list ForecastRow) (date : string) : list Group :=
  List.filter (fun g => String.eqb (g_date g) date && (50 <=? g_purchase g))
    (groupby_agg rows).

(** The rows of [high_volume_items] of one date, the entry made of them,
    and the dictionary the function builds. *)
Definition date_data (rows : list ForecastRow) (date : string) : list Group :=
  List.filter (fun g => String.eqb (g_date g) date)
    (List.filter (fun g => 50 <=? g_purchase g) (groupby_agg rows)).

Definition opportunity (data : list Group) : Opportunity :=
  mkOpportunity (sum_purchase data) (nlargest 5 data)
    (inject_Z (sum_purchase data) * 0.05)%Q.

Definition consolidate (rows : list ForecastRow) : gmap string Opportunity :=
  fold_left (fun acc date =>
               match date_data rows date with
               | [] => acc
               | _ => <[date := opportunity (date_data rows date)]> acc
               end)
    (unique (map g_date (groupby_agg rows))) ∅.

(** Groups in ascending order of their keys, and the purchase the table of
    groups records for one key. *)
Definition key_lt (g1 g2 : Group) : Prop :=
  key_compare (g_date g1) (g_sku g1) (g_date g2) (g_sku g2) = Lt.

Definition same_key (g : Group) (date sku : string) : bool :=
  String.eqb (g_date g) date && String.eqb (g_sku g) sku.

Definition sorted_groups (groups : list Group) : Prop :=
  StronglySorted key_lt groups.


(** ** Scenarios *)

(** A process before the manager is built: no configuration file yet. *)
Definition blank (tape clock : nat -> Z) : state :=
  mkState ∅ ∅ ∅ tape 0 clock 0 true None [].

Definition demo_tape (n : nat) : Z := Z.of_nat n * 7919 + 12345.

(** 2025-03-08, a Saturday, and the Monday after it. *)
Definition womens_day_2025 : Z := 739318.
Definition monday_2025 : Z := 739320.

(** The manager built from the default configuration. *)
Definition demo_state (clock : Z) : state :=
  snd (__init__ (blank demo_tape (fun _ => clock))).

(** The configuration of the first default store and its holiday table. *)
Definition almaty_1_config : dict :=
  default_store "Алматы ЦУМ" "пр. Абылай хана, 62" "premium" "large"
    "09:00" "22:00" "premium_customers" 200
    0.8 1.2 1.0 1.1 4.5 2.0 2.2 0.3 14 1.2.

Definition almaty_1_holidays : dict :=
  list_to_map
    [("WOMENS_DAY", VNum 4.5); ("VALENTINES", VNum 2.0); ("NAURYZ", VNum 2.2)].

(** The table a call returned, if it returned one. *)
Definition returned (run : result DataFrame * state) : DataFrame :=
  match fst run with
  | Ok df => df
  | Raise _ => NoColumns
  end.

Definition no_row : ForecastRow :=
  mkRow EmptyString EmptyString EmptyString VNone EmptyString 0 0 0 EmptyString
    VNone VNone 0.

Definition first_row (df : DataFrame) : ForecastRow := nth 0 (frame_rows df) no_row.

(** One day of forecast for the first default store. *)
Definition demo_run : result DataFrame * state :=
  get_store_forecast "almaty_1" (Some 1) (demo_state womens_day_2025).

(** A small network table: two stores on the 8th of March, one on the 9th. *)
Definition sample_row (date store sku : string) (purchase : Z) : ForecastRow :=
  mkRow date "Saturday" store (VStr store) sku purchase 0 purchase high
    (VNum 1.0) (VNum 1.0) 1.0.

Definition sample_rows : list ForecastRow :=
  [sample_row "2025-03-08" "almaty_1" "Роза_Premium_80см" 30;
   sample_row "2025-03-08" "almaty_1" "Пион_импорт" 40;
   sample_row "2025-03-08" "almaty_3" "Роза_Premium_80см" 25;
   sample_row "2025-03-09" "almaty_1" "Роза_Premium_80см" 10].

(** The process after a forecast, its generator seeded again as before. *)
Definition seeded_again (store_id : string) (days : option Z) (st : state) : state :=
  set_rng_pos (rng_pos st) (snd (get_store_forecast store_id days st)).

(** The caller of [add_new_store] holds its dictionary at this location. *)
Definition caller_loc : loc := 100%positive.

Definition with_caller_dict (d : dict) (st : state) : state :=
  set_heap (<[caller_loc := d]> (heap st)) st.

(** Where the manager keeps the configuration of the first default store. *)
Definition almaty_1_loc : loc := 2%positive.

(** The dictionary found at a location. *)
Definition object_at (st : state) (r : loc) : dict := default ∅ (heap st !! r).

(** The configuration of the usage example, and the same without
    [avg_daily_visitors]. *)
Definition incomplete_config : dict :=
  list_to_map
    [("name", VStr "Алматы Esentai Mall");
     ("address", VStr "пр. Аль-Фараби, 77/8");
     ("type", VStr "premium");
     ("size_category", VStr "large");
     ("target_audience", VStr "luxury_customers")].

Definition new_store_config : dict :=
  <["avg_daily_visitors" := VInt 180]> incomplete_config.




(** A store that has been deactivated. *)
Definition closed_config : dict := <["active" := VBool false]> new_store_config.

Definition closed_state : state :=
  snd (add_new_store "almaty_4" caller_loc
         (with_caller_dict closed_config (demo_state womens_day_2025))).

(** ** Vocabulary for the rest of the manager *)

(** The configuration the registry holds for a store. *)
Definition config_of (st : state) (store_id : string) : option dict :=
  match stores st !! store_id with
  | Some r => heap st !! r
  | None => None
  end.

(** The same, for a store known to be registered. *)
Definition config_at (st : state) (store_id : string) : dict :=
  default ∅ (config_of st store_id).

Definition is_active (st : state) (store_id : string) : bool :=
  match config_of st store_id with
  | Some c => truthy (dict_get c "active" (VBool true))
  | None => false
  end.



(** The dates of the rows of a forecast whose days start at offset
    [first]: the rows of the [i]-th day carry the date the clock gave at
    the [i]-th reading, plus the offset of that day. *)
Definition loop_dates (st : state) (width : nat) (first count : nat) : list string :=
  concat (map (fun i =>
                 replicate width
                   (Calendar.strftime_ymd
                      (Calendar.add_days (clock_tape st (clock_pos st + i)%nat)
                         (Z.of_nat (first + i)))))
              (seq 0 count)).


(** The loop of [get_network_forecast] over the store ids, with the frame
    concatenated so far. *)
Definition network_loop (forecast_days : Z) (store_ids : list string) :=
  foldM (fun network_forecast store_id =>
           r <- store_ref store_id ;;
           store_config <- deref r ;;
           if truthy (dict_get store_config "active" (VBool true)) then
             store_forecast <- get_store_forecast store_id (Some forecast_days) ;;
             ret (pd_concat network_forecast store_forecast)
           else ret network_forecast)
        store_ids.

(** The active stores among [store_ids], in that order. *)
Definition active_ids (st : state) (store_ids : list string) : list string :=
  List.filter (is_active st) store_ids.

(** A frame as the manager builds them: without columns when without rows. *)
Definition built (df : DataFrame) : Prop := df = pd_DataFrame (frame_rows df).

(** ** More scenarios *)

(** The keys of the default configuration, in the order it lists them. *)
Definition default_order : list string := ["almaty_1"; "almaty_2"; "almaty_3"].

(** Two days of network forecast from the default configuration. *)
Definition network_run : result DataFrame * state :=
  get_network_forecast default_order (Some 2) (demo_state womens_day_2025).

(** A registered store whose configuration lost its seasonal table. *)
Definition bare_config : dict := delete "seasonal_multipliers" almaty_1_config.

Definition bare_state : state :=
  set_heap (<[almaty_1_loc := bare_config]> (heap (demo_state womens_day_2025)))
    (demo_state womens_day_2025).

(** A clock that passes midnight after its first reading. *)
Definition midnight_state : state :=
  snd (__init__ (blank demo_tape (fun n => womens_day_2025 + Z.of_nat (Nat.min n 1)))).

(** The state a successful registration leaves: the registry with the
    completed dictionary, before anything is saved or logged. *)
Definition registered (store_id : string) (r : loc) (before : dict) (st : state) : state :=
  set_stores (<[store_id := r]> (stores st))
    (set_heap (<[r := with_defaults default_values before]> (heap st)) st).

(** The usage example, registered on a disk that accepts the file and on
    one that refuses it. *)
Definition example_caller : state :=
  with_caller_dict new_store_config (demo_state womens_day_2025).


(** The objects and the registry allocated for a list of loaded stores. *)
Definition alloc_list (l : list (string * dict)) : gmap loc dict * gmap string loc :=
  foldr (fun kd hs =>
           let r := Pos.of_succ_nat (size (fst hs)) in
           (<[r := snd kd]> (fst hs), <[fst kd := r]> (snd hs)))
        (∅, ∅) l.

(** A process that finds a configuration file with one store. *)
Definition single_store_file : gmap string dict * dict :=
  (<["astana_1" := new_store_config]> ∅, ∅).

Definition file_state : state :=
  mkState ∅ ∅ ∅ demo_tape 0 (fun _ => womens_day_2025) 0 false
    (Some single_store_file) [].





(** The registry after a closed store was added to the defaults. *)
Definition all_ids : list string := default_order ++ ["almaty_4"].

(** Groups in descending order of their purchase. *)
Definition descending (groups : list Group) : Prop :=
  StronglySorted (fun a b => g_purchase b <= g_purchase a) groups.

(** The store count the table of groups records for one key, and the
    number of rows of the forecast with that key. *)
Definition group_count (groups : list Group) (date sku : string) : Z :=
  fold_right Z.add 0 (map g_count (List.filter (fun g => same_key g date sku) groups)).

Definition rows_counted (rows : list ForecastRow) (date sku : string) : Z :=
  Z.of_nat (length (List.filter (key_eqb date sku) rows)).

(** A network table of one day with seven SKUs, one of them sold by two
    stores and one below the threshold. *)
Definition market_rows : list ForecastRow :=
  [sample_row "2025-03-08" "almaty_1" "Роза_Premium_80см" 60;
   sample_row "2025-03-08" "almaty_1" "Пион_импорт" 80;
   sample_row "2025-03-08" "almaty_2" "Роза_красная_60см" 50;
   sample_row "2025-03-08" "almaty_2" "Тюльпан_красный" 90;
   sample_row "2025-03-08" "almaty_2" "Хризантема_белая" 70;
   sample_row "2025-03-08" "almaty_3" "Роза_белая_70см" 55;
   sample_row "2025-03-08" "almaty_3" "Орхидея_белая" 40;
   sample_row "2025-03-08" "almaty_3" "Роза_Premium_80см" 15].

Definition market_entry : Opportunity :=
  opportunity (qualifying market_rows "2025-03-08").

(** * Verification *)

(** ** Reasoning about Python calls *)

Lemma bind_Ok {A B} (m : M A) (k : A -> M B) st b st' :
  bind m k st = (Ok b, st') ->
  exists a st1, m st = (Ok a, st1) /\ k a st1 = (Ok b, st').
Proof.
  unfold bind. destruct (m st) as [[a|e] st1]; intros H.
  - exists a, st1. split; [reflexivity | exact H].
  - discriminate H.
Qed.

Lemma bind_run {A B} (m : M A) (k : A -> M B) st a st1 :
  m st = (Ok a, st1) -> bind m k st = k a st1.
Proof. intros H. unfold bind. rewrite H. reflexivity. Qed.

Lemma bind_raise {A B} (m : M A) (k : A -> M B) st e st1 :
  m st = (Raise e, st1) -> bind m k st = (Raise e, st1).
Proof. intros H. unfold bind. rewrite H. reflexivity. Qed.

Lemma getitem_Ok d k v st st' :
  getitem d k st = (Ok v, st') -> d !! k = Some v /\ st' = st.
Proof.
  unfold getitem. destruct (d !! k) as [w|]; cbn; intros H; inversion H; auto.
Qed.

Lemma method_get_Ok v k dflt w st st' :
  method_get v k dflt st = (Ok w, st') ->
  exists d, v = VDict d /\ w = dict_get d k dflt /\ st' = st.
Proof.
  destruct v; cbn; intros H; inversion H. eauto.
Qed.

Lemma num_Ok v x st st' :
  num v st = (Ok x, st') -> as_num v = Some x /\ st' = st.
Proof.
  unfold num. destruct (as_num v); cbn; intros H; inversion H; auto.
Qed.

Lemma randint_Ok lo hi x st st' :
  randint lo hi st = (Ok x, st') ->
  lo <= x < hi /\ st' = set_rng_pos (S (rng_pos st)) st.
Proof.
  unfold randint. destruct (Z.ltb_spec lo hi) as [Hlt|Hge]; intros H; inversion H; subst.
  split; [|reflexivity].
  pose proof (Z.mod_pos_bound (rng_tape st (rng_pos st)) (hi - lo)). lia.
Qed.

Lemma uniform_Ok lo hi x st st' :
  uniform lo hi st = (Ok x, st') ->
  exists u, (0 <= u)%Q /\ (u < 1)%Q /\ x = (lo + (hi - lo) * u)%Q
            /\ st' = set_rng_pos (S (rng_pos st)) st.
Proof.
  unfold uniform. intros H. inversion H; subst.
  eexists. repeat split.
  - unfold Qle; cbn. pose proof (Z.mod_pos_bound (rng_tape st (rng_pos st)) (2 ^ 53)). lia.
  - unfold Qlt; cbn. pose proof (Z.mod_pos_bound (rng_tape st (rng_pos st)) (2 ^ 53)). lia.
Qed.

(** ** The calendar *)

Lemma month_day_range leap n :
  0 <= n < 365 ->
  1 <= fst (Calendar.month_day leap n) <= 12 /\
  1 <= snd (Calendar.month_day leap n) <= 31.
Proof.
  intros Hn.
  assert (Hall : forallb (fun k =>
            let n := Z.of_nat k in
            forallb (fun leap =>
              let md := Calendar.month_day leap n in
              (1 <=? fst md) && (fst md <=? 12) && (1 <=? snd md) && (snd md <=? 31))
              [true; false]) (seq 0 365) = true) by (vm_compute; reflexivity).
  rewrite forallb_forall in Hall.
  specialize (Hall (Z.to_nat n)).
  assert (Hin : In (Z.to_nat n) (seq 0 365)) by (apply in_seq; lia).
  specialize (Hall Hin). cbn zeta in Hall.
  rewrite Z2Nat.id in Hall by lia.
  rewrite forallb_forall in Hall.
  specialize (Hall leap).
  assert (Hl : In leap [true; false]) by (destruct leap; cbn; auto).
  specialize (Hall Hl). lia.
Qed.

Lemma month_day_of_date date :
  1 <= Calendar.month date <= 12 /\ 1 <= Calendar.day date <= 31.
Proof.
  unfold Calendar.month, Calendar.day, Calendar.ord2ymd.
  set (n := ((((date - 1) mod 146097) mod 36524) mod 1461) mod 365).
  destruct (_ || _); cbn [fst snd]; [lia|].
  match goal with |- context [Calendar.month_day ?l n] =>
    pose proof (month_day_range l n) as Hr;
    destruct (Calendar.month_day l n) as [m d] end.
  cbn [fst snd] in *. apply Hr. subst n. apply Z.mod_pos_bound. lia.
Qed.

(** ['%m-%d'] tells the three holiday dates apart from every other date. *)
Lemma strftime_md_eqb date (m d : Z) :
  In (m, d) [(3, 8); (2, 14); (3, 21)] ->
  String.eqb (Calendar.strftime_md date)
             (Calendar.digits 2 m +:+ "-" +:+ Calendar.digits 2 d)
  = (Calendar.month date =? m) && (Calendar.day date =? d).
Proof.
  intros Hmd. unfold Calendar.strftime_md.
  destruct (month_day_of_date date) as [Hm' Hd'].
  generalize dependent (Calendar.day date). generalize dependent (Calendar.month date).
  intros m' Hm' d' Hd'.
  assert (Hall : forallb (fun md => forallb (fun a' => forallb (fun b' =>
     Bool.eqb
       (String.eqb (Calendar.digits 2 (Z.of_nat a') +:+ "-" +:+ Calendar.digits 2 (Z.of_nat b'))
                   (Calendar.digits 2 (fst md) +:+ "-" +:+ Calendar.digits 2 (snd md)))
       ((Z.of_nat a' =? fst md) && (Z.of_nat b' =? snd md)))
     (seq 1 31)) (seq 1 12)) [(3, 8); (2, 14); (3, 21)] = true) by (vm_compute; reflexivity).
  rewrite forallb_forall in Hall.
  specialize (Hall (m, d) Hmd).
  rewrite forallb_forall in Hall.
  specialize (Hall (Z.to_nat m') ltac:(apply in_seq; lia)).
  rewrite forallb_forall in Hall.
  specialize (Hall (Z.to_nat d') ltac:(apply in_seq; lia)).
  rewrite !Z2Nat.id in Hall by lia.
  apply Bool.eqb_prop in Hall. exact Hall.
Qed.

(** ** Holiday factor *)

Lemma holidays_lookup (w v n dflt : value) (s : string) :
  dict_get (list_to_map [("03-08", w); ("02-14", v); ("03-21", n)]) s dflt
  = if String.eqb s "03-08" then w
    else if String.eqb s "02-14" then v
    else if String.eqb s "03-21" then n
    else dflt.
Proof.
  unfold dict_get. cbn [list_to_map foldr fst snd uncurry].
  destruct (String.eqb_spec s "03-08") as [->|H1].
  { rewrite lookup_insert_eq. reflexivity. }
  rewrite lookup_insert_ne by congruence.
  destruct (String.eqb_spec s "02-14") as [->|H2].
  { rewrite lookup_insert_eq. reflexivity. }
  rewrite lookup_insert_ne by congruence.
  destruct (String.eqb_spec s "03-21") as [->|H3].
  { rewrite lookup_insert_eq. reflexivity. }
  rewrite lookup_insert_ne by congruence.
  rewrite lookup_empty. reflexivity.
Qed.

(** The holiday lookup neither fails nor touches the state once the
    configuration carries a table of holiday multipliers. *)
Lemma holiday_multiplier_run (date : Z) (store_config tbl : dict) (st : state) :
  store_config !! "holiday_multipliers" = Some (VDict tbl) ->
  _get_holiday_multiplier date store_config st
  = (Ok (exact_date_factor tbl date), st).
Proof.
  intros Hcfg. unfold _get_holiday_multiplier.
  erewrite bind_run; [|unfold getitem; rewrite Hcfg; reflexivity].
  cbn [method_get]. unfold bind, ret.
  rewrite holidays_lookup. unfold exact_date_factor.
  change "03-08" with (Calendar.digits 2 3 +:+ "-" +:+ Calendar.digits 2 8).
  change "02-14" with (Calendar.digits 2 2 +:+ "-" +:+ Calendar.digits 2 14).
  change "03-21" with (Calendar.digits 2 3 +:+ "-" +:+ Calendar.digits 2 21).
  rewrite !strftime_md_eqb by (cbn; auto).
  reflexivity.
Qed.

(** C7. The holiday factor of a date is the store's multiplier of the
    holiday whose calendar date (03-08 WOMENS_DAY, 02-14 VALENTINES,
    03-21 NAURYZ) is the month and day of that date, with 1.0 for a code
    the store does not list, and 1.0 on every other date: only the exact
    date counts, no window of days around a holiday. *)
Theorem holiday_factor_exact_date (date : Z) (store_config tbl : dict) (st : state) :
  store_config !! "holiday_multipliers" = Some (VDict tbl) ->
  exists factor,
    _get_holiday_multiplier date store_config st = (Ok factor, st)
    /\ (Calendar.month date = 3 /\ Calendar.day date = 8 ->
        factor = dict_get tbl "WOMENS_DAY" (VNum 1.0))
    /\ (Calendar.month date = 2 /\ Calendar.day date = 14 ->
        factor = dict_get tbl "VALENTINES" (VNum 1.0))
    /\ (Calendar.month date = 3 /\ Calendar.day date = 21 ->
        factor = dict_get tbl "NAURYZ" (VNum 1.0))
    /\ (~ (Calendar.month date = 3 /\ Calendar.day date = 8) ->
        ~ (Calendar.month date = 2 /\ Calendar.day date = 14) ->
        ~ (Calendar.month date = 3 /\ Calendar.day date = 21) ->
        factor = VNum 1.0).
Proof.
  intros Hcfg. exists (exact_date_factor tbl date).
  split; [apply holiday_multiplier_run, Hcfg|].
  unfold exact_date_factor.
  destruct (Z.eqb_spec (Calendar.month date) 3) as [Hm3|Hm3];
    destruct (Z.eqb_spec (Calendar.month date) 2) as [Hm2|Hm2];
    destruct (Z.eqb_spec (Calendar.day date) 8) as [Hd8|Hd8];
    destruct (Z.eqb_spec (Calendar.day date) 14) as [Hd14|Hd14];
    destruct (Z.eqb_spec (Calendar.day date) 21) as [Hd21|Hd21];
    cbn [andb]; repeat split; intros; try reflexivity; try lia; tauto.
Qed.

Lemma holiday_factor_exact_date_witness :
  exists factor,
    _get_holiday_multiplier womens_day_2025 almaty_1_config
      (blank demo_tape (fun _ => womens_day_2025))
    = (Ok factor, blank demo_tape (fun _ => womens_day_2025))
    /\ (Calendar.month womens_day_2025 = 3 /\ Calendar.day womens_day_2025 = 8 ->
        factor = dict_get almaty_1_holidays "WOMENS_DAY" (VNum 1.0))
    /\ (Calendar.month womens_day_2025 = 2 /\ Calendar.day womens_day_2025 = 14 ->
        factor = dict_get almaty_1_holidays "VALENTINES" (VNum 1.0))
    /\ (Calendar.month womens_day_2025 = 3 /\ Calendar.day womens_day_2025 = 21 ->
        factor = dict_get almaty_1_holidays "NAURYZ" (VNum 1.0))
    /\ (~ (Calendar.month womens_day_2025 = 3 /\ Calendar.day womens_day_2025 = 8) ->
        ~ (Calendar.month womens_day_2025 = 2 /\ Calendar.day womens_day_2025 = 14) ->
        ~ (Calendar.month womens_day_2025 = 3 /\ Calendar.day womens_day_2025 = 21) ->
        factor = VNum 1.0).
Proof.
  apply (holiday_factor_exact_date womens_day_2025 almaty_1_config almaty_1_holidays).
  vm_compute. reflexivity.
Defined.

(** On the 8th of March 2025 the first default store applies its
    WOMENS_DAY multiplier. *)
Example holiday_factor_womens_day_2025 (st : state) :
  _get_holiday_multiplier womens_day_2025 almaty_1_config st = (Ok (VNum 4.5), st).
Proof.
  rewrite (holiday_multiplier_run womens_day_2025 almaty_1_config almaty_1_holidays)
    by (vm_compute; reflexivity).
  reflexivity.
Qed.

(** The eve of the 8th of March carries no holiday factor. *)
Example no_peak_window_before_womens_day (tbl : dict) :
  exact_date_factor tbl (womens_day_2025 - 1) = VNum 1.0.
Proof. reflexivity. Qed.

(** ** Rows of a forecast *)

Lemma holiday_Ok date store_config v st st' :
  _get_holiday_multiplier date store_config st = (Ok v, st') ->
  st' = st /\ exists t, store_config !! "holiday_multipliers" = Some (VDict t)
                        /\ v = exact_date_factor t date.
Proof.
  intros H.
  destruct (store_config !! "holiday_multipliers") as [hm|] eqn:Hhm.
  - destruct hm as [| | | | | |t];
      try (unfold _get_holiday_multiplier in H;
           erewrite bind_run in H by (unfold getitem; rewrite Hhm; reflexivity);
           cbn in H; discriminate H).
    rewrite (holiday_multiplier_run date store_config t st Hhm) in H.
    inversion H; subst. eauto.
  - unfold _get_holiday_multiplier in H.
    erewrite bind_raise in H by (unfold getitem; rewrite Hhm; reflexivity).
    discriminate H.
Qed.

Lemma ret_Ok {A} (a b : A) st st' : ret a st = (Ok b, st') -> b = a /\ st' = st.
Proof. unfold ret. intros H. inversion H. auto. Qed.

(** One step of decomposing a successful run into its primitive calls. *)
Ltac run_step :=
  match goal with
  | H : bind _ _ _ = (Ok _, _) |- _ =>
      apply bind_Ok in H; destruct H as (? & ? & ? & H)
  | H : ret _ _ = (Ok _, _) |- _ => apply ret_Ok in H; destruct H as [-> ->]
  | H : randint _ _ _ = (Ok _, _) |- _ => apply randint_Ok in H; destruct H as [? ->]
  | H : uniform _ _ _ = (Ok _, _) |- _ =>
      apply uniform_Ok in H; destruct H as (? & ? & ? & -> & ->)
  | H : getitem _ _ _ = (Ok _, _) |- _ => apply getitem_Ok in H; destruct H as [? ->]
  | H : method_get _ _ _ _ = (Ok _, _) |- _ =>
      apply method_get_Ok in H; destruct H as (? & -> & -> & ->)
  | H : num _ _ = (Ok _, _) |- _ => apply num_Ok in H; destruct H as [? ->]
  | H : _get_holiday_multiplier _ _ _ = (Ok _, _) |- _ =>
      apply holiday_Ok in H; destruct H as [-> (? & ? & ->)]
  | H : _get_weather_multiplier _ _ = (Ok _, _) |- _ =>
      unfold _get_weather_multiplier in H
  end.

Lemma forecast_sku_Ok store_id store_config range date sku st row st' :
  forecast_sku store_id store_config range date sku st = (Ok row, st') ->
  row_spec store_config range date row /\ row_sku row = sku.
Proof.
  intros H. unfold forecast_sku in H. repeat run_step.
  split; [|reflexivity].
  econstructor; cbn; eauto.
Qed.

Lemma randint_run lo hi st :
  lo < hi ->
  randint lo hi st
  = (Ok (lo + rng_tape st (rng_pos st) mod (hi - lo)), set_rng_pos (S (rng_pos st)) st).
Proof. intros H. unfold randint. destruct (Z.ltb_spec lo hi); [reflexivity | lia]. Qed.






(** *** The two loops *)

Lemma inner_loop_Ok sid cfg range date skus acc st acc' st' :
  inner_loop sid cfg range date skus acc st = (Ok acc', st') ->
  exists new, acc' = acc ++ new /\ map row_sku new = skus
              /\ Forall (generated cfg range) new.
Proof.
  revert acc st. induction skus as [|sku skus IH]; intros acc st H.
  - cbn in H. apply ret_Ok in H as [-> _]. exists []. rewrite app_nil_r. auto.
  - cbn [inner_loop foldM] in H.
    apply bind_Ok in H as (acc1 & st1 & Hbody & H).
    apply bind_Ok in Hbody as (row & st2 & Hrow & Hret).
    apply ret_Ok in Hret as [-> ->].
    apply forecast_sku_Ok in Hrow as [Hspec Hsku].
    apply IH in H as (new & -> & Hskus & Hall).
    exists (row :: new). rewrite <- app_assoc. split; [reflexivity|]. split.
    + cbn. rewrite Hsku, Hskus. reflexivity.
    + constructor; [exists date; exact Hspec | exact Hall].
Qed.

Lemma outer_loop_Ok sid cfg range skus days acc st acc' st' :
  outer_loop sid cfg range skus days acc st = (Ok acc', st') ->
  exists new, acc' = acc ++ new
              /\ map row_sku new = concat (map (fun _ => skus) days)
              /\ Forall (generated cfg range) new.
Proof.
  revert acc st. induction days as [|day days IH]; intros acc st H.
  - cbn in H. apply ret_Ok in H as [-> _]. exists []. rewrite app_nil_r. auto.
  - cbn [outer_loop foldM] in H.
    apply bind_Ok in H as (acc1 & st1 & Hbody & H).
    apply bind_Ok in Hbody as (today & st2 & _ & Hinner).
    apply inner_loop_Ok in Hinner as (new1 & -> & Hsk1 & Hall1).
    apply IH in H as (new2 & -> & Hsk2 & Hall2).
    exists (new1 ++ new2). rewrite <- app_assoc. split; [reflexivity|]. split.
    + cbn. rewrite map_app, Hsk1, Hsk2. reflexivity.
    + apply Forall_app. auto.
Qed.



(** *** The forecast of one store *)

Lemma frame_rows_pd_DataFrame data : frame_rows (pd_DataFrame data) = data.
Proof. destruct data; reflexivity. Qed.

Lemma store_ref_run sid r st : stores st !! sid = Some r -> store_ref sid st = (Ok r, st).
Proof. intros H. unfold store_ref. rewrite H. reflexivity. Qed.

Lemma deref_run r d st : heap st !! r = Some d -> deref r st = (Ok d, st).
Proof. intros H. unfold deref. rewrite H. reflexivity. Qed.

Lemma store_ref_Ok sid r st st' :
  store_ref sid st = (Ok r, st') -> stores st !! sid = Some r /\ st' = st.
Proof.
  unfold store_ref. destruct (stores st !! sid); intros H; inversion H; auto.
Qed.

Lemma deref_Ok r d st st' :
  deref r st = (Ok d, st') -> heap st !! r = Some d /\ st' = st.
Proof.
  unfold deref. destruct (heap st !! r); intros H; inversion H; auto.
Qed.

(** The generator as the two loops over the store's assortment. *)
Lemma generate_unfold sid days r cfg st :
  stores st !! sid = Some r -> heap st !! r = Some cfg ->
  _generate_store_specific_forecast sid days st
  = (forecast_data <-
       outer_loop sid cfg (snd (assortment (store_type cfg)))
         (fst (assortment (store_type cfg))) (py_range days) [] ;;
     ret (pd_DataFrame forecast_data)) st.
Proof.
  intros Hs Hh. unfold _generate_store_specific_forecast.
  erewrite bind_run by (apply store_ref_run; exact Hs).
  erewrite bind_run by (apply deref_run; exact Hh).
  fold (store_type cfg). destruct (assortment (store_type cfg)) as [skus range].
  reflexivity.
Qed.

Lemma generate_Ok sid days st df st' :
  _generate_store_specific_forecast sid days st = (Ok df, st') ->
  exists r cfg,
    stores st !! sid = Some r /\ heap st !! r = Some cfg
    /\ map row_sku (frame_rows df)
       = concat (map (fun _ => fst (assortment (store_type cfg))) (py_range days))
    /\ Forall (generated cfg (snd (assortment (store_type cfg)))) (frame_rows df).
Proof.
  intros H.
  assert (Href : exists r cfg, stores st !! sid = Some r /\ heap st !! r = Some cfg).
  { unfold _generate_store_specific_forecast in H.
    apply bind_Ok in H as (r & s1 & Hr & H). apply store_ref_Ok in Hr as [Hr ->].
    apply bind_Ok in H as (cfg & s2 & Hc & H). apply deref_Ok in Hc as [Hc ->].
    eauto. }
  destruct Href as (r & cfg & Hr & Hc). exists r, cfg.
  rewrite (generate_unfold sid days r cfg st Hr Hc) in H.
  apply bind_Ok in H as (data & s1 & Hloop & Hret).
  apply ret_Ok in Hret as [-> ->].
  apply outer_loop_Ok in Hloop as (new & -> & Hskus & Hall).
  rewrite frame_rows_pd_DataFrame. cbn [app]. auto.
Qed.

Lemma get_store_forecast_Ok sid days st df st' :
  get_store_forecast sid days st = (Ok df, st') ->
  exists r cfg,
    stores st !! sid = Some r /\ heap st !! r = Some cfg
    /\ Forall (generated cfg (snd (assortment (store_type cfg)))) (frame_rows df).
Proof.
  intros H. unfold get_store_forecast in H.
  apply bind_Ok in H as (known & s0 & Hk & H). inversion Hk; subst; clear Hk.
  destruct (bool_decide _); cbn [negb] in H; [|discriminate H].
  apply bind_Ok in H as (r & s1 & Hr & H). apply store_ref_Ok in Hr as [Hr ->].
  apply bind_Ok in H as (cfg & s2 & Hc & H). apply deref_Ok in Hc as [Hc ->].
  exists r, cfg. split; [exact Hr|]. split; [exact Hc|].
  destruct (negb _).
  - apply bind_Ok in H as (? & ? & _ & H). apply ret_Ok in H as [-> _].
    constructor.
  - apply bind_Ok in H as (n & s3 & Hn & H).
    assert (s3 = s0) as ->.
    { destruct days as [d|]; [apply ret_Ok in Hn as [_ ->]; reflexivity|].
      destruct (as_int _); [apply ret_Ok in Hn as [_ ->]; reflexivity | discriminate Hn]. }
    apply generate_Ok in H as (r' & cfg' & Hr' & Hc' & _ & Hall).
    rewrite Hr in Hr'. injection Hr' as <-. rewrite Hc in Hc'. injection Hc' as <-.
    exact Hall.
Qed.

Lemma get_store_forecast_active sid days r cfg st :
  stores st !! sid = Some r -> heap st !! r = Some cfg ->
  truthy (dict_get cfg "active" (VBool true)) = true ->
  get_store_forecast sid (Some days) st = _generate_store_specific_forecast sid days st.
Proof.
  intros Hr Hc Hactive. unfold get_store_forecast.
  erewrite bind_run by reflexivity.
  rewrite bool_decide_true by (rewrite Hr; eauto). cbn [negb].
  erewrite bind_run by (apply store_ref_run; exact Hr).
  erewrite bind_run by (apply deref_run; exact Hc).
  rewrite Hactive. cbn [negb].
  erewrite bind_run by reflexivity. reflexivity.
Qed.



Lemma assortment_base store_type :
  length (fst (assortment store_type)) = 6%nat
  /\ 0 <= fst (snd (assortment store_type)) < snd (snd (assortment store_type)).
Proof.
  unfold assortment.
  destruct (eq_str store_type "premium"); [cbn; lia|].
  destruct (eq_str store_type "mass_market"); cbn; lia.
Qed.


(** The three assortments and their base-demand ranges; any other type
    is served as a business store. *)
Example assortment_by_type :
  assortment (VStr "premium") = (premium_skus, (15, 40))
  /\ assortment (VStr "mass_market") = (mass_market_skus, (25, 60))
  /\ assortment (VStr "business") = (business_skus, (10, 35))
  /\ assortment (VStr "kiosk") = (business_skus, (10, 35)).
Proof. repeat split. Qed.

(** *** Priority, signs and the safety stock *)

Lemma Qltb_lt x y : Qltb x y = true <-> (x < y)%Q.
Proof. unfold Qltb, Qlt. apply Z.ltb_lt. Qed.

Lemma classify_cases rp d :
  (d < rp -> classify rp d = high)
  /\ ((inject_Z d * 0.5 < inject_Z rp)%Q /\ rp <= d -> classify rp d = medium)
  /\ (rp <= d /\ ~ (inject_Z d * 0.5 < inject_Z rp)%Q -> classify rp d = low).
Proof.
  unfold classify. repeat split.
  - intros H. destruct (Z.gtb_spec rp d); [reflexivity | lia].
  - intros [Hhalf Hle]. destruct (Z.gtb_spec rp d); [lia|].
    apply Qltb_lt in Hhalf. rewrite Hhalf. reflexivity.
  - intros [Hle Hhalf]. destruct (Z.gtb_spec rp d); [lia|].
    destruct (Qltb _ _) eqn:E; [|reflexivity].
    apply Qltb_lt in E. contradiction.
Qed.

(** C2. In every generated row the priority follows the purchase
    recommendation: above the demand it is high; above half the demand and
    at most the demand it is medium; in every other case it is low. *)
Theorem priority_classification (st : state) (store_id : string)
    (days : option Z) (df : DataFrame) (st' : state) (row : ForecastRow) :
  get_store_forecast store_id days st = (Ok df, st') ->
  In row (frame_rows df) ->
  (final_demand row < recommended_purchase row -> priority row = high)
  /\ ((inject_Z (final_demand row) * 0.5 < inject_Z (recommended_purchase row))%Q
      /\ recommended_purchase row <= final_demand row -> priority row = medium)
  /\ (recommended_purchase row <= final_demand row
      /\ ~ (inject_Z (final_demand row) * 0.5 < inject_Z (recommended_purchase row))%Q ->
      priority row = low).
Proof.
  intros Hrun Hin.
  apply get_store_forecast_Ok in Hrun as (r & cfg & _ & _ & Hall).
  rewrite List.Forall_forall in Hall. destruct (Hall row Hin) as [date Hspec].
  destruct Hspec. rewrite Hpriority. apply classify_cases.
Qed.

Lemma py_int_nonneg x : (0 <= x)%Q -> 0 <= py_int x.
Proof.
  unfold Qle, py_int. cbn. intros H. apply Z.quot_pos; lia.
Qed.

Lemma py_int_floor x : (0 <= x)%Q -> py_int x = Qfloor x.
Proof.
  unfold Qle, py_int, Qfloor. destruct x as [n d]. cbn. intros H.
  apply Z.quot_div_nonneg; lia.
Qed.

Lemma py_int_neg x : (x <= 0)%Q -> py_int x <= 0.
Proof.
  unfold Qle, py_int. destruct x as [n d]. cbn. intros H.
  assert (Hn : n <= 0) by lia.
  rewrite <- (Z.opp_involutive n), Z.quot_opp_l by lia.
  pose proof (Z.quot_pos (- n) (Z.pos d)). lia.
Qed.

Lemma dict_get_nonneg (c t : dict) key k x :
  nonneg_table c key -> c !! key = Some (VDict t) ->
  as_num (dict_get t k (VNum 1.0)) = Some x -> (0 <= x)%Q.
Proof.
  intros Hnn Hc. unfold dict_get. destruct (t !! k) as [v|] eqn:Hk; cbn.
  - intros Hx. eapply Hnn; eauto.
  - intros [= <-]. discriminate.
Qed.

Lemma exact_date_factor_nonneg (c t : dict) date x :
  nonneg_table c "holiday_multipliers" ->
  c !! "holiday_multipliers" = Some (VDict t) ->
  as_num (exact_date_factor t date) = Some x -> (0 <= x)%Q.
Proof.
  intros Hnn Hc. unfold exact_date_factor.
  repeat match goal with |- context [if ?b then _ else _] => destruct b end;
    try (apply (dict_get_nonneg c t "holiday_multipliers"); assumption).
  intros [= <-]. discriminate.
Qed.

Lemma weather_nonneg s u :
  (0 <= s)%Q -> (s <= 1)%Q -> (0 <= u)%Q -> (u < 1)%Q ->
  (0 <= 1.0 + (- s + (s - - s) * u))%Q.
Proof.
  intros Hs0 Hs1 Hu0 Hu1.
  assert (H : (0 <= (s - - s) * u)%Q).
  { apply Qmult_le_0_compat; [|exact Hu0]. lra. }
  lra.
Qed.

Lemma generated_nonneg cfg range row :
  sane_multipliers cfg -> 0 <= fst range ->
  generated cfg range row ->
  0 <= final_demand row /\ 0 <= recommended_purchase row.
Proof.
  intros (Hseas & Hhol & Hsens) Hrange [date Hspec]. destruct Hspec.
  split; [|rewrite Hpurchase; lia].
  rewrite Hdemand. apply py_int_nonneg.
  destruct Hseasonal_table as (ts & Hts & Hsv).
  destruct Hholiday_table as (th & Hth & Hhv).
  assert (Hs : (0 <= seasonal)%Q).
  { rewrite Hsv in Hseasonal.
    exact (dict_get_nonneg cfg ts "seasonal_multipliers" _ _ Hseas Hts Hseasonal). }
  assert (Hh : (0 <= holiday)%Q).
  { rewrite Hhv in Hholiday.
    exact (exact_date_factor_nonneg cfg th date _ Hhol Hth Hholiday). }
  assert (Hw : (0 <= weather_mult row)%Q).
  { rewrite Hweather. destruct (Hsens _ Hsensitivity). destruct Hu.
    apply weather_nonneg; assumption. }
  assert (Hb : (0 <= inject_Z base)%Q).
  { change 0%Q with (inject_Z 0). rewrite <- Zle_Qle. lia. }
  repeat apply Qmult_le_0_compat; try assumption.
  destruct (Z_in _ _); discriminate.
Qed.

(** C6. For a store whose multipliers are non-negative and whose weather
    sensitivity lies in [0,1], every generated row has a non-negative
    demand and a non-negative recommended purchase. *)
Theorem demand_and_purchase_nonneg (st : state) (store_id : string)
    (days : option Z) (r : loc) (store_config : dict)
    (df : DataFrame) (st' : state) (row : ForecastRow) :
  stores st !! store_id = Some r ->
  heap st !! r = Some store_config ->
  sane_multipliers store_config ->
  get_store_forecast store_id days st = (Ok df, st') ->
  In row (frame_rows df) ->
  0 <= final_demand row /\ 0 <= recommended_purchase row.
Proof.
  intros Hr Hc Hsane Hrun Hin.
  apply get_store_forecast_Ok in Hrun as (r' & cfg' & Hr' & Hc' & Hall).
  rewrite Hr in Hr'. injection Hr' as <-. rewrite Hc in Hc'. injection Hc' as <-.
  rewrite List.Forall_forall in Hall.
  apply (generated_nonneg store_config
           (snd (assortment (store_type store_config))) row Hsane);
    [apply assortment_base | apply Hall, Hin].
Qed.

Lemma generated_within_safety_stock cfg range row ratio :
  as_num (dict_get cfg "safety_stock_ratio" (VNum 1.2)) = Some ratio ->
  generated cfg range row ->
  (0 <= inject_Z (final_demand row) * ratio)%Q ->
  recommended_purchase row <= Qfloor (inject_Z (final_demand row) * ratio).
Proof.
  intros Hr [date Hspec] Hpos. destruct Hspec.
  rewrite Hr in Hratio. injection Hratio as <-.
  rewrite Hpurchase.
  set (x := (inject_Z (final_demand row) * ratio)%Q) in *.
  assert (Hfloor : 0 <= Qfloor x).
  { change 0 with (Qfloor 0). apply Qfloor_resp_le. exact Hpos. }
  assert (Hcs : (0 <= inject_Z (current_stock row))%Q).
  { change 0%Q with (inject_Z 0). rewrite <- Zle_Qle. lia. }
  apply Z.max_lub; [exact Hfloor|].
  destruct (Qlt_le_dec (x - inject_Z (current_stock row)) 0) as [Hneg|Hnn].
  - pose proof (py_int_neg (x - inject_Z (current_stock row)) (Qlt_le_weak _ _ Hneg)). lia.
  - rewrite py_int_floor by exact Hnn. apply Qfloor_resp_le. lra.
Qed.


(** With sane multipliers and a non-negative safety-stock ratio the
    safety-adjusted demand is never negative, and the bound holds for
    every row. *)
Lemma generated_within_safety_stock_sane cfg range row ratio :
  sane_multipliers cfg -> 0 <= fst range ->
  as_num (dict_get cfg "safety_stock_ratio" (VNum 1.2)) = Some ratio ->
  (0 <= ratio)%Q ->
  generated cfg range row ->
  recommended_purchase row <= Qfloor (inject_Z (final_demand row) * ratio).
Proof.
  intros Hsane Hrange Hratio Hpos Hgen.
  apply (generated_within_safety_stock cfg range row ratio Hratio Hgen).
  destruct (generated_nonneg cfg range row Hsane Hrange Hgen) as [Hd _].
  apply Qmult_le_0_compat; [|exact Hpos].
  change 0%Q with (inject_Z 0). rewrite <- Zle_Qle. exact Hd.
Qed.

(** *** Unknown and inactive stores *)

Lemma lookup_object_at st r :
  bool_decide (is_Some (heap st !! r)) = true -> heap st !! r = Some (object_at st r).
Proof.
  intros H. apply bool_decide_eq_true in H. destruct H as [d Hd].
  unfold object_at. rewrite Hd. reflexivity.
Qed.

(** C4. A store absent from the registry makes the forecast fail with the
    not-found error (a [ValueError] naming the store); a store present but
    inactive yields an empty table, and no error. *)
Theorem forecast_unknown_or_inactive (st : state) (store_id : string) (days : option Z) :
  (stores st !! store_id = None ->
   get_store_forecast store_id days st
   = (Raise (ValueError ("Магазин " +:+ store_id +:+ " не найден в конфигурации")), st))
  /\ (forall r store_config,
        stores st !! store_id = Some r ->
        heap st !! r = Some store_config ->
        truthy (dict_get store_config "active" (VBool true)) = false ->
        fst (get_store_forecast store_id days st) = Ok NoColumns
        /\ len NoColumns = 0%nat).
Proof.
  split.
  - intros Hnone. unfold get_store_forecast.
    erewrite bind_run by reflexivity.
    rewrite bool_decide_false by (rewrite Hnone; intros [? ?]; discriminate).
    reflexivity.
  - intros r cfg Hr Hc Hinactive. split; [|reflexivity].
    unfold get_store_forecast.
    erewrite bind_run by reflexivity.
    rewrite bool_decide_true by (rewrite Hr; eauto). cbn [negb].
    erewrite bind_run by (apply store_ref_run; exact Hr).
    erewrite bind_run by (apply deref_run; exact Hc).
    rewrite Hinactive. reflexivity.
Qed.

Lemma forecast_unknown_or_inactive_witness :
  get_store_forecast "almaty_9" None (demo_state womens_day_2025)
  = (Raise (ValueError ("Магазин " +:+ "almaty_9" +:+ " не найден в конфигурации")),
     demo_state womens_day_2025)
  /\ (fst (get_store_forecast "almaty_4" (Some 7) closed_state) = Ok NoColumns
      /\ len NoColumns = 0%nat).
Proof.
  split.
  - apply (proj1 (forecast_unknown_or_inactive
                    (demo_state womens_day_2025) "almaty_9" None)).
    vm_compute. reflexivity.
  - apply (proj2 (forecast_unknown_or_inactive closed_state "almaty_4" (Some 7))
             caller_loc (object_at closed_state caller_loc)).
    + vm_compute. reflexivity.
    + apply lookup_object_at. vm_compute. reflexivity.
    + vm_compute. reflexivity.
Defined.

(** *** Checking configurations *)



Lemma nonneg_tableb_spec c key : nonneg_tableb c key = true -> nonneg_table c key.
Proof.
  unfold nonneg_tableb, nonneg_table. intros H t k v x Hc Hk Hx.
  rewrite Hc in H. rewrite forallb_forall in H.
  assert (Hin : In (k, v) (map_to_list t)).
  { apply list_elem_of_In, elem_of_map_to_list, Hk. }
  apply H in Hin. cbn in Hin. rewrite Hx in Hin. apply Qle_bool_iff, Hin.
Qed.

Lemma sane_multipliersb_spec c : sane_multipliersb c = true -> sane_multipliers c.
Proof.
  unfold sane_multipliersb, sane_multipliers. rewrite !andb_true_iff.
  intros [[Hs Hh] Hw].
  split; [apply nonneg_tableb_spec, Hs|].
  split; [apply nonneg_tableb_spec, Hh|].
  intros s Hsens. rewrite Hsens in Hw. apply andb_true_iff in Hw as [H0 H1].
  split; apply Qle_bool_iff; assumption.
Qed.

Lemma run_eq {A} (run : result A * state) (a : result A) :
  fst run = a -> run = (a, snd run).
Proof. destruct run. cbn. intros ->. reflexivity. Qed.

(** *** The default store on the 8th of March 2025 *)


Lemma priority_classification_witness :
  (final_demand (first_row (returned demo_run))
   < recommended_purchase (first_row (returned demo_run)) ->
   priority (first_row (returned demo_run)) = high)
  /\ ((inject_Z (final_demand (first_row (returned demo_run))) * 0.5
       < inject_Z (recommended_purchase (first_row (returned demo_run))))%Q
      /\ recommended_purchase (first_row (returned demo_run))
         <= final_demand (first_row (returned demo_run)) ->
      priority (first_row (returned demo_run)) = medium)
  /\ (recommended_purchase (first_row (returned demo_run))
      <= final_demand (first_row (returned demo_run))
      /\ ~ (inject_Z (final_demand (first_row (returned demo_run))) * 0.5
            < inject_Z (recommended_purchase (first_row (returned demo_run))))%Q ->
      priority (first_row (returned demo_run)) = low).
Proof.
  apply (priority_classification (demo_state womens_day_2025) "almaty_1" (Some 1)
           (returned demo_run) (snd demo_run)).
  - apply run_eq. vm_compute. reflexivity.
  - vm_compute. left. reflexivity.
Defined.

Lemma demand_and_purchase_nonneg_witness :
  0 <= final_demand (first_row (returned demo_run))
  /\ 0 <= recommended_purchase (first_row (returned demo_run)).
Proof.
  apply (demand_and_purchase_nonneg (demo_state womens_day_2025) "almaty_1" (Some 1)
           almaty_1_loc (object_at (demo_state womens_day_2025) almaty_1_loc)
           (returned demo_run) (snd demo_run)).
  - vm_compute. reflexivity.
  - apply lookup_object_at. vm_compute. reflexivity.
  - apply sane_multipliersb_spec. vm_compute. reflexivity.
  - apply run_eq. vm_compute. reflexivity.
  - vm_compute. left. reflexivity.
Defined.



(** ** Registration *)

Lemma set_heap_id st : set_heap (heap st) st = st.
Proof. destruct st. reflexivity. Qed.

Lemma contains_false (d : dict) k : contains d k = false <-> d !! k = None.
Proof.
  unfold contains. destruct (d !! k); split; intros H; try reflexivity; discriminate.
Qed.

(** The validation loop: it passes without effect when every field is
    there, and raises on the first missing one, without effect either. *)
Lemma validation_run r cfg fields st :
  heap st !! r = Some cfg ->
  for_each fields (fun field =>
    d <- deref r ;;
    if contains d field then ret tt
    else raise (ValueError ("Отсутствует обязательное поле: " +:+ field))) st
  = match List.find (fun field => negb (contains cfg field)) fields with
    | None => (Ok tt, st)
    | Some field =>
        (Raise (ValueError ("Отсутствует обязательное поле: " +:+ field)), st)
    end.
Proof.
  intros Hr. induction fields as [|f fields IH]; [reflexivity|].
  cbn [for_each List.find].
  destruct (contains cfg f) eqn:Hf; cbn [negb].
  - erewrite bind_run; [exact IH|].
    erewrite bind_run by (apply deref_run; exact Hr). rewrite Hf. reflexivity.
  - erewrite bind_raise; [reflexivity|].
    erewrite bind_run by (apply deref_run; exact Hr). rewrite Hf. reflexivity.
Qed.

(** The defaulting loop writes into the object at [r]. *)
Lemma defaulting_run r items : forall cfg st,
  heap st !! r = Some cfg ->
  for_each items (fun kv =>
    d <- deref r ;;
    if contains d (fst kv) then ret tt else setitem r (fst kv) (snd kv)) st
  = (Ok tt, set_heap (<[r := with_defaults items cfg]> (heap st)) st).
Proof.
  induction items as [|[k v] items IH]; intros cfg st Hr.
  - cbn. rewrite insert_id by exact Hr. rewrite set_heap_id. reflexivity.
  - cbn [for_each with_defaults fold_left fst snd].
    destruct (contains cfg k) eqn:Hk.
    + erewrite bind_run; [apply IH; exact Hr|].
      erewrite bind_run by (apply deref_run; exact Hr). rewrite Hk. reflexivity.
    + erewrite bind_run.
      2:{ erewrite bind_run by (apply deref_run; exact Hr). rewrite Hk.
          unfold setitem. erewrite bind_run by (apply deref_run; exact Hr).
          reflexivity. }
      rewrite (IH (<[k := v]> cfg)) by (cbn; apply lookup_insert_eq).
      cbn. rewrite insert_insert_eq. reflexivity.
Qed.

Lemma with_defaults_present items : forall (d : dict) k,
  is_Some (d !! k) -> with_defaults items d !! k = d !! k.
Proof.
  induction items as [|[k' v'] items IH]; intros d k Hk; [reflexivity|].
  cbn [with_defaults fold_left fst snd].
  destruct (contains d k') eqn:Hc; [apply IH, Hk|].
  apply contains_false in Hc.
  assert (k <> k') by (intros ->; rewrite Hc in Hk; destruct Hk; discriminate).
  fold (with_defaults items (<[k' := v']> d)).
  rewrite IH by (rewrite lookup_insert_ne by congruence; exact Hk).
  apply lookup_insert_ne. congruence.
Qed.

Lemma with_defaults_other items : forall (d : dict) k,
  ~ In k (map fst items) -> with_defaults items d !! k = d !! k.
Proof.
  induction items as [|[k' v'] items IH]; intros d k Hk; [reflexivity|].
  cbn [with_defaults fold_left fst snd]. cbn in Hk.
  fold (with_defaults items (if contains d k' then d else <[k' := v']> d)).
  rewrite IH by tauto.
  destruct (contains d k'); [reflexivity|].
  apply lookup_insert_ne. intros ->. tauto.
Qed.

Lemma with_defaults_absent items : forall (d : dict) k v,
  NoDup (map fst items) -> In (k, v) items -> d !! k = None ->
  with_defaults items d !! k = Some v.
Proof.
  induction items as [|[k' v'] items IH]; intros d k v Hnd Hin Hk; [destruct Hin|].
  cbn [with_defaults fold_left fst snd]. cbn in Hnd. apply NoDup_cons in Hnd as [Hk' Hnd].
  fold (with_defaults items (if contains d k' then d else <[k' := v']> d)).
  destruct Hin as [[= -> ->]|Hin].
  - apply contains_false in Hk. rewrite Hk.
    rewrite with_defaults_other by (rewrite <- list_elem_of_In; exact Hk').
    apply lookup_insert_eq.
  - assert (k <> k').
    { intros ->. apply Hk'. apply list_elem_of_In.
      change k' with (fst (k', v)). apply in_map, Hin. }
    apply IH; [exact Hnd | exact Hin |].
    destruct (contains d k'); [exact Hk|].
    rewrite lookup_insert_ne by congruence. exact Hk.
Qed.

Lemma default_values_NoDup : NoDup (map fst default_values).
Proof.
  cbn. repeat (constructor; [rewrite list_elem_of_In; cbn; intuition discriminate|]).
  constructor.
Qed.

Lemma save_config_run st :
  exists st', _save_config st = (Ok tt, st')
              /\ heap st' = heap st /\ stores st' = stores st.
Proof.
  unfold _save_config, try_except. destruct (disk_writable st).
  - eexists. split; [reflexivity|]. split; reflexivity.
  - eexists. split; [reflexivity|]. split; reflexivity.
Qed.

Lemma add_new_store_invalid st sid r cfg field :
  heap st !! r = Some cfg -> missing_field cfg = Some field ->
  add_new_store sid r st
  = (Ok false,
     set_log (log st ++ [mkLog ERROR ("Ошибка добавления магазина " +:+ sid +:+ ": ")
                           (Some (ValueError ("Отсутствует обязательное поле: " +:+ field)))])
       st).
Proof.
  intros Hr Hmiss. unfold add_new_store, try_except.
  erewrite bind_raise.
  2:{ rewrite (validation_run r cfg required_fields st Hr).
      fold (missing_field cfg). rewrite Hmiss. reflexivity. }
  reflexivity.
Qed.

Lemma add_new_store_valid st sid r cfg :
  heap st !! r = Some cfg -> missing_field cfg = None ->
  exists st',
    add_new_store sid r st = (Ok true, st')
    /\ heap st' = <[r := with_defaults default_values cfg]> (heap st)
    /\ stores st' = <[sid := r]> (stores st).
Proof.
  intros Hr Hmiss.
  set (st1 := set_stores (<[sid := r]> (stores st))
                (set_heap (<[r := with_defaults default_values cfg]> (heap st)) st)).
  destruct (save_config_run st1) as (st2 & Hsave & Hheap & Hstores).
  eexists. split.
  - unfold add_new_store, try_except.
    erewrite bind_run.
    2:{ rewrite (validation_run r cfg required_fields st Hr).
        fold (missing_field cfg). rewrite Hmiss. reflexivity. }
    erewrite bind_run by (apply (defaulting_run r default_values cfg st Hr)).
    erewrite bind_run by reflexivity.
    fold st1. erewrite bind_run by exact Hsave.
    erewrite bind_run by reflexivity. reflexivity.
  - cbn. rewrite Hheap, Hstores. split; reflexivity.
Qed.

Lemma add_new_store_not_a_dict st sid r :
  heap st !! r = None -> fst (add_new_store sid r st) = Ok false.
Proof.
  intros Hr. unfold add_new_store, try_except.
  erewrite bind_raise.
  2:{ cbn [for_each required_fields]. erewrite bind_raise; [reflexivity|].
      erewrite bind_raise; [reflexivity|]. unfold deref. rewrite Hr. reflexivity. }
  reflexivity.
Qed.

Lemma missing_field_Some cfg field :
  In field required_fields -> cfg !! field = None ->
  exists f, missing_field cfg = Some f.
Proof.
  intros Hin Hnone. unfold missing_field.
  destruct (List.find _ required_fields) as [f|] eqn:Hfind; [eauto|].
  eapply find_none in Hfind; [|exact Hin].
  apply contains_false in Hnone. rewrite Hnone in Hfind. discriminate.
Qed.

(** C3 (as amended). A registration whose dictionary lacks a required
    field does not raise: the validation error is caught and logged, the
    call returns False, and the registry is left as it was: same stores,
    same count, same objects, same configuration file. *)
Theorem registration_missing_field (st : state) (store_id : string) (r : loc)
    (store_config : dict) (field : string) :
  heap st !! r = Some store_config ->
  In field required_fields ->
  store_config !! field = None ->
  exists st',
    add_new_store store_id r st = (Ok false, st')
    /\ stores st' = stores st
    /\ size (stores st') = size (stores st)
    /\ heap st' = heap st
    /\ disk st' = disk st
    /\ exists missing,
         log st' = log st ++
           [mkLog ERROR ("Ошибка добавления магазина " +:+ store_id +:+ ": ")
              (Some (ValueError ("Отсутствует обязательное поле: " +:+ missing)))].
Proof.
  intros Hr Hin Hnone.
  destruct (missing_field_Some store_config field Hin Hnone) as [f Hf].
  eexists. split; [apply (add_new_store_invalid st store_id r store_config f Hr Hf)|].
  cbn. repeat split. exists f. reflexivity.
Qed.

Lemma registration_missing_field_witness :
  exists st',
    add_new_store "almaty_4" caller_loc
      (with_caller_dict incomplete_config (demo_state womens_day_2025)) = (Ok false, st')
    /\ stores st' = stores (with_caller_dict incomplete_config (demo_state womens_day_2025))
    /\ size (stores st')
       = size (stores (with_caller_dict incomplete_config (demo_state womens_day_2025)))
    /\ heap st' = heap (with_caller_dict incomplete_config (demo_state womens_day_2025))
    /\ disk st' = disk (with_caller_dict incomplete_config (demo_state womens_day_2025))
    /\ exists missing,
         log st' = log (with_caller_dict incomplete_config (demo_state womens_day_2025)) ++
           [mkLog ERROR ("Ошибка добавления магазина " +:+ "almaty_4" +:+ ": ")
              (Some (ValueError ("Отсутствует обязательное поле: " +:+ missing)))].
Proof.
  apply (registration_missing_field
           (with_caller_dict incomplete_config (demo_state womens_day_2025))
           "almaty_4" caller_loc incomplete_config "avg_daily_visitors").
  - apply lookup_insert_eq.
  - cbn. tauto.
  - vm_compute. reflexivity.
Defined.

(** C3 as stated fails: the registration without [avg_daily_visitors]
    returns False to its caller; no exception reaches it. *)
Lemma registration_error_not_propagated :
  incomplete_config !! "avg_daily_visitors" = None
  /\ fst (add_new_store "almaty_4" caller_loc
            (with_caller_dict incomplete_config (demo_state womens_day_2025))) = Ok false
  /\ forall e,
       fst (add_new_store "almaty_4" caller_loc
              (with_caller_dict incomplete_config (demo_state womens_day_2025))) <> Raise e.
Proof.
  assert (H : fst (add_new_store "almaty_4" caller_loc
              (with_caller_dict incomplete_config (demo_state womens_day_2025))) = Ok false)
    by (vm_compute; reflexivity).
  split; [vm_compute; reflexivity|]. split; [exact H|].
  intros e. rewrite H. discriminate.
Qed.



(** The registry sees what the caller later does to its dictionary: once
    the caller clears [active] in it, the store's forecast is empty. *)
Example caller_mutation_reaches_registry :
  fst (get_store_forecast "almaty_4" (Some 1)
         (snd (setitem caller_loc "active" (VBool false)
                 (snd (add_new_store "almaty_4" caller_loc
                         (with_caller_dict new_store_config
                            (demo_state womens_day_2025)))))))
  = Ok NoColumns.
Proof. vm_compute. reflexivity. Qed.

(** *** Where StoreConfigs come from *)



Lemma with_defaults_field (c : dict) k v :
  In (k, v) default_values ->
  with_defaults default_values c !! k = Some (default v (c !! k)).
Proof.
  intros Hin. destruct (c !! k) as [w|] eqn:Hc.
  - rewrite with_defaults_present by (rewrite Hc; eauto). rewrite Hc. reflexivity.
  - apply with_defaults_absent; auto using default_values_NoDup.
Qed.



(** ** Consolidation *)

(** *** The order of the group keys *)

Lemma ascii_compare_refl a : Ascii.compare a a = Eq.
Proof. unfold Ascii.compare. apply N.compare_refl. Qed.

Lemma ascii_compare_lt_trans a b c :
  Ascii.compare a b = Lt -> Ascii.compare b c = Lt -> Ascii.compare a c = Lt.
Proof.
  unfold Ascii.compare. rewrite !N.compare_lt_iff. apply N.lt_trans.
Qed.

Lemma string_compare_refl s : String.compare s s = Eq.
Proof.
  induction s as [|a s IH]; [reflexivity|]. cbn. rewrite ascii_compare_refl. exact IH.
Qed.

Lemma string_compare_lt_trans s1 : forall s2 s3,
  String.compare s1 s2 = Lt -> String.compare s2 s3 = Lt -> String.compare s1 s3 = Lt.
Proof.
  induction s1 as [|a s1 IH]; intros [|b s2] [|c s3]; cbn; try congruence.
  destruct (Ascii.compare a b) eqn:Hab; try discriminate;
    destruct (Ascii.compare b c) eqn:Hbc; try discriminate; intros H1 H2.
  - apply Ascii.compare_eq_iff in Hab, Hbc. subst.
    rewrite ascii_compare_refl. eapply IH; eassumption.
  - apply Ascii.compare_eq_iff in Hab. subst. rewrite Hbc. reflexivity.
  - apply Ascii.compare_eq_iff in Hbc. subst. rewrite Hab. reflexivity.
  - rewrite (ascii_compare_lt_trans a b c Hab Hbc). reflexivity.
Qed.

Lemma key_compare_Eq d1 s1 d2 s2 :
  key_compare d1 s1 d2 s2 = Eq <-> d1 = d2 /\ s1 = s2.
Proof.
  unfold key_compare. split.
  - destruct (String.compare d1 d2) eqn:Hd; try discriminate.
    intros Hs. apply String.compare_eq_iff in Hd, Hs. auto.
  - intros [-> ->]. rewrite !string_compare_refl. reflexivity.
Qed.

Lemma key_compare_antisym d1 s1 d2 s2 :
  key_compare d1 s1 d2 s2 = CompOpp (key_compare d2 s2 d1 s1).
Proof.
  unfold key_compare. rewrite (String.compare_antisym d1 d2).
  destruct (String.compare d2 d1); cbn; [apply String.compare_antisym | reflexivity..].
Qed.

Lemma key_compare_lt_trans d1 s1 d2 s2 d3 s3 :
  key_compare d1 s1 d2 s2 = Lt -> key_compare d2 s2 d3 s3 = Lt ->
  key_compare d1 s1 d3 s3 = Lt.
Proof.
  unfold key_compare.
  destruct (String.compare d1 d2) eqn:H12; try discriminate;
    destruct (String.compare d2 d3) eqn:H23; try discriminate; intros Ha Hb.
  - apply String.compare_eq_iff in H12, H23. subst.
    rewrite string_compare_refl. eapply string_compare_lt_trans; eassumption.
  - apply String.compare_eq_iff in H12. subst. rewrite H23. reflexivity.
  - apply String.compare_eq_iff in H23. subst. rewrite H12. reflexivity.
  - rewrite (string_compare_lt_trans d1 d2 d3 H12 H23). reflexivity.
Qed.

Lemma key_lt_not_same g1 g2 : key_lt g1 g2 -> same_key g2 (g_date g1) (g_sku g1) = false.
Proof.
  unfold key_lt, same_key. intros Hlt.
  destruct (String.eqb_spec (g_date g2) (g_date g1)) as [Hd|]; [|reflexivity].
  destruct (String.eqb_spec (g_sku g2) (g_sku g1)) as [Hs|]; [|reflexivity].
  rewrite Hd, Hs in Hlt.
  rewrite (proj2 (key_compare_Eq _ _ _ _) (conj eq_refl eq_refl)) in Hlt. discriminate.
Qed.

(** *** Grouping *)

Lemma add_row_keys r groups g :
  In g (add_row r groups) ->
  (g_date g = row_date r /\ g_sku g = row_sku r)
  \/ In g groups.
Proof.
  induction groups as [|h rest IH]; cbn.
  - intros [<-|[]]. left. auto.
  - destruct (key_compare _ _ _ _) eqn:Hc; cbn.
    + apply key_compare_Eq in Hc as [Hd Hs].
      intros [<-|Hin]; [left; cbn; auto | right; right; exact Hin].
    + intros [<-|Hin]; [left; auto | right; exact Hin].
    + intros [<-|Hin]; [right; left; reflexivity|].
      destruct (IH Hin) as [?|?]; [left; assumption | right; right; assumption].
Qed.

Lemma add_row_sorted r groups : sorted_groups groups -> sorted_groups (add_row r groups).
Proof.
  unfold sorted_groups.
  induction groups as [|h rest IH]; cbn; intros Hs.
  - repeat constructor.
  - apply StronglySorted_inv in Hs as [Hrest Hh].
    destruct (key_compare _ _ _ _) eqn:Hc.
    + constructor; [exact Hrest|].
      apply key_compare_Eq in Hc as [Hd Hs].
      eapply List.Forall_impl; [|exact Hh]. intros g Hg. exact Hg.
    + constructor; [constructor; assumption|].
      constructor; [exact Hc|].
      eapply List.Forall_impl; [|exact Hh]. intros g Hg.
      unfold key_lt in *. cbn. eapply key_compare_lt_trans; eassumption.
    + constructor; [apply IH, Hrest|].
      apply List.Forall_forall. intros g Hg.
      apply add_row_keys in Hg as [[Hd Hk]|Hg].
      * unfold key_lt. rewrite Hd, Hk, key_compare_antisym, Hc. reflexivity.
      * rewrite List.Forall_forall in Hh. apply Hh, Hg.
Qed.

Ltac case_eqbs :=
  repeat match goal with
  | |- context [String.eqb ?a ?b] => destruct (String.eqb a b)
  end.


Lemma groupby_sorted rows : sorted_groups (groupby_agg rows).
Proof.
  unfold groupby_agg.
  assert (H : forall groups, sorted_groups groups ->
                sorted_groups (fold_left (fun gs r => add_row r gs) rows groups)).
  { induction rows as [|r rows IH]; cbn; intros groups Hs; [exact Hs|].
    apply IH, add_row_sorted, Hs. }
  apply H. constructor.
Qed.


Lemma filter_none {A} (f : A -> bool) (l : list A) :
  (forall x, In x l -> f x = false) -> List.filter f l = [].
Proof.
  induction l as [|a l IH]; intros H; [reflexivity|].
  cbn. rewrite (H a) by (left; reflexivity). apply IH. intros x Hx. apply H. right. exact Hx.
Qed.



(** *** The table of opportunities *)

Lemma filter_filter_and {A} (f g : A -> bool) (l : list A) :
  List.filter f (List.filter g l) = List.filter (fun x => f x && g x) l.
Proof.
  induction l as [|a l IH]; [reflexivity|].
  cbn. destruct (g a) eqn:Hg; cbn.
  - destruct (f a); cbn; rewrite IH; reflexivity.
  - rewrite andb_false_r. exact IH.
Qed.

Lemma date_data_qualifying rows date : date_data rows date = qualifying rows date.
Proof. unfold date_data, qualifying. apply filter_filter_and. Qed.

Lemma consolidation_run rows st :
  get_consolidation_opportunities (Table rows) st = (Ok (consolidate rows), st).
Proof. reflexivity. Qed.

Lemma unique_fold_In x l : forall seen,
  In x seen \/ In x l ->
  In x (fold_left (fun seen y => if existsb (String.eqb y) seen then seen else seen ++ [y])
          l seen).
Proof.
  induction l as [|y l IH]; intros seen H; cbn.
  - destruct H as [H|[]]. exact H.
  - apply IH. destruct H as [H|[->|H]].
    + left. destruct (existsb _ seen); [exact H | apply in_or_app; left; exact H].
    + left. destruct (existsb (String.eqb x) seen) eqn:He.
      * apply existsb_exists in He as (z & Hz & Hxz).
        apply String.eqb_eq in Hxz. subst. exact Hz.
      * apply in_or_app. right. left. reflexivity.
    + right. exact H.
Qed.

Lemma In_unique x l : In x l -> In x (unique l).
Proof. intros H. apply unique_fold_In. right. exact H. Qed.

Lemma fold_dates_lookup (data : string -> list Group) dates :
  forall (acc : gmap string Opportunity) d,
  fold_left (fun acc date =>
               match data date with
               | [] => acc
               | _ => <[date := opportunity (data date)]> acc
               end) dates acc !! d
  = match data d with
    | [] => acc !! d
    | _ => if existsb (String.eqb d) dates then Some (opportunity (data d)) else acc !! d
    end.
Proof.
  induction dates as [|date dates IH]; intros acc d; cbn [fold_left existsb].
  - destruct (data d); reflexivity.
  - rewrite IH. destruct (data d) as [|g gs] eqn:Hd.
    + destruct (data date) eqn:Hdate; [reflexivity|].
      apply lookup_insert_ne. intros ->. rewrite Hd in Hdate. discriminate.
    + destruct (String.eqb_spec d date) as [->|Hne]; cbn [orb].
      * rewrite Hd. destruct (existsb _ dates); [reflexivity|].
        rewrite lookup_insert_eq. reflexivity.
      * destruct (existsb _ dates); [reflexivity|].
        destruct (data date); [reflexivity|].
        apply lookup_insert_ne. congruence.
Qed.

Lemma consolidate_lookup rows date :
  consolidate rows !! date
  = match qualifying rows date with
    | [] => None
    | _ => Some (opportunity (qualifying rows date))
    end.
Proof.
  unfold consolidate. rewrite fold_dates_lookup, lookup_empty.
  rewrite date_data_qualifying.
  destruct (qualifying rows date) as [|g gs] eqn:Hq; [reflexivity|].
  assert (Hg : In g (qualifying rows date)) by (rewrite Hq; left; reflexivity).
  unfold qualifying in Hg. apply filter_In in Hg as [Hin Hk].
  apply andb_true_iff in Hk as [Hd _]. apply String.eqb_eq in Hd.
  assert (He : existsb (String.eqb date) (unique (map g_date (groupby_agg rows))) = true).
  { apply existsb_exists. exists date. split; [|apply String.eqb_refl].
    apply In_unique. rewrite <- Hd. apply in_map, Hin. }
  rewrite He. reflexivity.
Qed.

Lemma insert_desc_In g x sorted :
  In x (insert_desc g sorted) -> x = g \/ In x sorted.
Proof.
  induction sorted as [|h t IH]; cbn.
  - intros [<-|[]]. left. reflexivity.
  - destruct (g_purchase h <=? g_purchase g); cbn.
    + intros [<-|H]; [left; reflexivity | right; exact H].
    + intros [<-|H]; [right; left; reflexivity|].
      destruct (IH H) as [->|H']; [left; reflexivity | right; right; exact H'].
Qed.

Lemma nlargest_In n frame x : In x (nlargest n frame) -> In x frame.
Proof.
  unfold nlargest. intros H. apply list_elem_of_In, elem_of_take in H as (i & H & _).
  apply list_elem_of_lookup_2, list_elem_of_In in H.
  clear i n. induction frame as [|g frame IH]; [destruct H|].
  cbn in H. apply insert_desc_In in H as [->|H]; [left; reflexivity | right; apply IH, H].
Qed.



(** A frame without columns, such as the forecast of an inactive store,
    cannot be grouped. *)
Example consolidation_without_columns (st : state) :
  get_consolidation_opportunities NoColumns st = (Raise (KeyError "Дата"), st).
Proof. reflexivity. Qed.

(** On the sample table only the roses of the 8th of March reach the
    threshold (30 + 25); the peonies (40) and the 9th (10) are left out. *)
Example consolidation_sample :
  consolidate sample_rows !! "2025-03-08"
  = Some (mkOpportunity 55 [mkGroup "2025-03-08" "Роза_Premium_80см" 55 2]
            (inject_Z 55 * 0.05)%Q)
  /\ consolidate sample_rows !! "2025-03-09" = None.
Proof. split; vm_compute; reflexivity. Qed.

(** ** Reproducibility *)

Lemma det_ret {A} (a : A) : deterministic (ret a).
Proof. intros st1 st2 H. split; [reflexivity | exact H]. Qed.

Lemma det_raise {A} e : deterministic (@raise A e).
Proof. intros st1 st2 H. split; [reflexivity | exact H]. Qed.

Lemma det_bind {A B} (m : M A) (k : A -> M B) :
  deterministic m -> (forall a, deterministic (k a)) -> deterministic (bind m k).
Proof.
  intros Hm Hk st1 st2 H. unfold bind.
  destruct (Hm st1 st2 H) as [Hres Hst].
  destruct (m st1) as [[a1|e1] s1], (m st2) as [[a2|e2] s2]; cbn in *;
    try discriminate.
  - injection Hres as <-. apply Hk, Hst.
  - injection Hres as <-. split; [reflexivity | exact Hst].
Qed.

Lemma det_foldM {A B} (f : B -> A -> M B) (l : list A) :
  (forall b a, deterministic (f b a)) -> forall acc, deterministic (foldM f l acc).
Proof.
  intros Hf. induction l as [|x xs IH]; intros acc; cbn [foldM].
  - apply det_ret.
  - apply det_bind; [apply Hf | exact IH].
Qed.

Lemma same_seed_next st1 st2 :
  same_seed st1 st2 ->
  rng_tape st1 (rng_pos st1) = rng_tape st2 (rng_pos st2)
  /\ same_seed (set_rng_pos (S (rng_pos st1)) st1) (set_rng_pos (S (rng_pos st2)) st2).
Proof.
  intros H. split.
  - specialize (H 0%nat). rewrite !Nat.add_0_r in H. exact H.
  - intros n. cbn. specialize (H (S n)). rewrite !Nat.add_succ_r in H. exact H.
Qed.

Lemma det_randint lo hi : deterministic (randint lo hi).
Proof.
  intros st1 st2 (Hreg & Hseed & Hclock). unfold randint.
  destruct (same_seed_next st1 st2 Hseed) as [Hword Hnext].
  destruct (lo <? hi); cbn.
  - rewrite Hword. repeat split; try apply Hreg; assumption.
  - repeat split; try apply Hreg; assumption.
Qed.

Lemma det_uniform lo hi : deterministic (uniform lo hi).
Proof.
  intros st1 st2 (Hreg & Hseed & Hclock). unfold uniform.
  destruct (same_seed_next st1 st2 Hseed) as [Hword Hnext].
  cbn. rewrite Hword. repeat split; try apply Hreg; assumption.
Qed.

Lemma det_now : deterministic now.
Proof.
  intros st1 st2 (Hreg & Hseed & Hclock). unfold now. cbn. split.
  - specialize (Hclock 0%nat). rewrite !Nat.add_0_r in Hclock. rewrite Hclock. reflexivity.
  - repeat split; try apply Hreg; try assumption.
    intros n. cbn. specialize (Hclock (S n)). rewrite !Nat.add_succ_r in Hclock. exact Hclock.
Qed.

Lemma det_deref r : deterministic (deref r).
Proof.
  intros st1 st2 H. unfold deref. destruct H as ((Hheap & Hstores) & Hseed & Hclock).
  rewrite Hheap. destruct (heap st2 !! r); cbn; repeat split; assumption.
Qed.

Lemma det_store_ref sid : deterministic (store_ref sid).
Proof.
  intros st1 st2 H. unfold store_ref. destruct H as ((Hheap & Hstores) & Hseed & Hclock).
  rewrite Hstores. destruct (stores st2 !! sid); cbn; repeat split; assumption.
Qed.

Lemma det_logger l m c : deterministic (logger l m c).
Proof.
  intros st1 st2 ((Hheap & Hstores) & Hseed & Hclock). unfold logger. cbn.
  repeat split; assumption.
Qed.

Lemma det_getitem d k : deterministic (getitem d k).
Proof. unfold getitem. destruct (d !! k); [apply det_ret | apply det_raise]. Qed.

Lemma det_method_get v k dflt : deterministic (method_get v k dflt).
Proof. destruct v; cbn; first [apply det_ret | apply det_raise]. Qed.

Lemma det_num v : deterministic (num v).
Proof. unfold num. destruct (as_num v); [apply det_ret | apply det_raise]. Qed.

Ltac det :=
  repeat first
    [ apply det_ret | apply det_raise | apply det_randint | apply det_uniform
    | apply det_now | apply det_deref | apply det_store_ref | apply det_logger
    | apply det_getitem | apply det_method_get | apply det_num
    | apply det_bind; [|intros ?] ].

Lemma det_holiday date cfg : deterministic (_get_holiday_multiplier date cfg).
Proof. unfold _get_holiday_multiplier. det. Qed.

Lemma det_weather cfg : deterministic (_get_weather_multiplier cfg).
Proof. unfold _get_weather_multiplier. det. Qed.

Lemma det_forecast_sku sid cfg range date sku :
  deterministic (forecast_sku sid cfg range date sku).
Proof.
  unfold forecast_sku.
  repeat first [ apply det_holiday | apply det_weather | progress det ].
Qed.

Lemma det_generate sid days : deterministic (_generate_store_specific_forecast sid days).
Proof.
  unfold _generate_store_specific_forecast.
  apply det_bind; [apply det_store_ref | intros r].
  apply det_bind; [apply det_deref | intros cfg].
  destruct (assortment _) as [skus range].
  apply det_bind; [|intros data; apply det_ret].
  apply det_foldM. intros acc day.
  apply det_bind; [apply det_now | intros today].
  apply det_foldM. intros acc' sku.
  apply det_bind; [apply det_forecast_sku | intros row; apply det_ret].
Qed.

Lemma det_get_store_forecast sid days : deterministic (get_store_forecast sid days).
Proof.
  unfold get_store_forecast.
  apply det_bind.
  { intros st1 st2 H. cbn. split; [|exact H].
    destruct H as ((_ & Hstores) & _). rewrite Hstores. reflexivity. }
  intros known. destruct (negb known); [apply det_raise|].
  apply det_bind; [apply det_store_ref | intros r].
  apply det_bind; [apply det_deref | intros cfg].
  destruct (negb _).
  - det.
  - apply det_bind; [|intros n; apply det_generate].
    destruct days; [apply det_ret|].
    destruct (as_int _); [apply det_ret | apply det_raise].
Qed.

(** C8 (as amended). Two calls of the forecast with identical arguments on
    the same registry return identical results when the generator starts
    from the same seed and the clock is read at the same dates. *)
Theorem forecast_reproducible (store_id : string) (days : option Z) (st1 st2 : state) :
  same_registry st1 st2 -> same_seed st1 st2 -> same_clock st1 st2 ->
  fst (get_store_forecast store_id days st1) = fst (get_store_forecast store_id days st2).
Proof.
  intros Hreg Hseed Hclock.
  apply (det_get_store_forecast store_id days st1 st2). repeat split; try apply Hreg; assumption.
Qed.

(** *** The forecast leaves the registry alone *)

Lemma frame_ret {A} (a : A) : frame (ret a).
Proof. intros st. repeat split. Qed.

Lemma frame_raise {A} e : frame (@raise A e).
Proof. intros st. repeat split. Qed.

Lemma frame_bind {A B} (m : M A) (k : A -> M B) :
  frame m -> (forall a, frame (k a)) -> frame (bind m k).
Proof.
  intros Hm Hk st. unfold bind. specialize (Hm st).
  destruct (m st) as [[a|e] s1]; cbn in *; [|exact Hm].
  destruct Hm as (H1 & H2 & H3 & H4). destruct (Hk a s1) as (K1 & K2 & K3 & K4).
  repeat split; congruence.
Qed.

Lemma frame_foldM {A B} (f : B -> A -> M B) (l : list A) :
  (forall b a, frame (f b a)) -> forall acc, frame (foldM f l acc).
Proof.
  intros Hf. induction l as [|x xs IH]; intros acc; cbn [foldM].
  - apply frame_ret.
  - apply frame_bind; [apply Hf | exact IH].
Qed.

Lemma frame_randint lo hi : frame (randint lo hi).
Proof. intros st. unfold randint. destruct (lo <? hi); repeat split. Qed.

Lemma frame_uniform lo hi : frame (uniform lo hi).
Proof. intros st. repeat split. Qed.

Lemma frame_now : frame now.
Proof. intros st. repeat split. Qed.

Lemma frame_deref r : frame (deref r).
Proof. intros st. unfold deref. destruct (heap st !! r); repeat split. Qed.

Lemma frame_store_ref sid : frame (store_ref sid).
Proof. intros st. unfold store_ref. destruct (stores st !! sid); repeat split. Qed.

Lemma frame_logger l m c : frame (logger l m c).
Proof. intros st. repeat split. Qed.

Lemma frame_getitem d k : frame (getitem d k).
Proof. unfold getitem. destruct (d !! k); [apply frame_ret | apply frame_raise]. Qed.

Lemma frame_method_get v k dflt : frame (method_get v k dflt).
Proof. destruct v; cbn; first [apply frame_ret | apply frame_raise]. Qed.

Lemma frame_num v : frame (num v).
Proof. unfold num. destruct (as_num v); [apply frame_ret | apply frame_raise]. Qed.

Ltac frame_auto :=
  repeat first
    [ apply frame_ret | apply frame_raise | apply frame_randint | apply frame_uniform
    | apply frame_now | apply frame_deref | apply frame_store_ref | apply frame_logger
    | apply frame_getitem | apply frame_method_get | apply frame_num
    | apply frame_bind; [|intros ?] ].

Lemma frame_forecast_sku sid cfg range date sku :
  frame (forecast_sku sid cfg range date sku).
Proof.
  unfold forecast_sku, _get_holiday_multiplier, _get_weather_multiplier. frame_auto.
Qed.

Lemma frame_get_store_forecast sid days : frame (get_store_forecast sid days).
Proof.
  unfold get_store_forecast.
  apply frame_bind; [intros st; repeat split | intros known].
  destruct (negb known); [apply frame_raise|].
  apply frame_bind; [apply frame_store_ref | intros r].
  apply frame_bind; [apply frame_deref | intros cfg].
  destruct (negb _); [frame_auto|].
  apply frame_bind.
  { destruct days; [apply frame_ret|].
    destruct (as_int _); [apply frame_ret | apply frame_raise]. }
  intros n. unfold _generate_store_specific_forecast.
  apply frame_bind; [apply frame_store_ref | intros r'].
  apply frame_bind; [apply frame_deref | intros cfg'].
  destruct (assortment _) as [skus range].
  apply frame_bind; [|intros data; apply frame_ret].
  apply frame_foldM. intros acc day.
  apply frame_bind; [apply frame_now | intros today].
  apply frame_foldM. intros acc' sku.
  apply frame_bind; [apply frame_forecast_sku | intros row; apply frame_ret].
Qed.

(** After a forecast and a fresh seeding the process agrees with what it
    was, as long as the clock stays on the same day. *)
Lemma seeded_again_agree (store_id : string) (days : option Z) (st : state) :
  (forall i j, clock_tape st i = clock_tape st j) ->
  same_registry st (seeded_again store_id days st)
  /\ same_seed st (seeded_again store_id days st)
  /\ same_clock st (seeded_again store_id days st).
Proof.
  intros Hday.
  destruct (frame_get_store_forecast store_id days st) as (Hheap & Hstores & Hrng & Hclock).
  unfold seeded_again, same_registry, same_seed, same_clock.
  generalize dependent (snd (get_store_forecast store_id days st)).
  intros st2 Hheap Hstores Hrng Hclock. cbn.
  rewrite Hheap, Hstores, Hrng, Hclock. repeat split. intros n. apply Hday.
Qed.

Lemma forecast_reproducible_witness :
  fst (get_store_forecast "almaty_1" (Some 1) (demo_state womens_day_2025))
  = fst (get_store_forecast "almaty_1" (Some 1)
           (seeded_again "almaty_1" (Some 1) (demo_state womens_day_2025))).
Proof.
  apply (forecast_reproducible "almaty_1" (Some 1) (demo_state womens_day_2025)
           (seeded_again "almaty_1" (Some 1) (demo_state womens_day_2025)));
    apply (seeded_again_agree "almaty_1" (Some 1) (demo_state womens_day_2025));
    intros i j; reflexivity.
Defined.

(** C8 as stated fails: the same registry, arguments and seed give a
    different table on another day, because the dates of the rows come
    from the clock. *)
Lemma forecast_depends_on_clock :
  same_registry (demo_state womens_day_2025) (demo_state monday_2025)
  /\ same_seed (demo_state womens_day_2025) (demo_state monday_2025)
  /\ fst (get_store_forecast "almaty_1" (Some 1) (demo_state womens_day_2025))
     <> fst (get_store_forecast "almaty_1" (Some 1) (demo_state monday_2025)).
Proof.
  split; [split; reflexivity|]. split; [intros n; reflexivity|].
  intros H.
  apply (f_equal (fun run => match run with
                             | Ok df => row_date (first_row df)
                             | Raise _ => EmptyString
                             end)) in H.
  vm_compute in H. discriminate H.
Qed.

(** * The rest of the manager *)

(** ** What a forecast consumes *)

Lemma set_rng_pos_set_rng_pos n m st :
  set_rng_pos n (set_rng_pos m st) = set_rng_pos n st.
Proof. reflexivity. Qed.

(** The body of the inner loop draws three numbers and touches nothing
    else; the row names the store and the date it was made for. *)
Lemma forecast_sku_effect sid cfg range date sku st row st' :
  forecast_sku sid cfg range date sku st = (Ok row, st') ->
  st' = set_rng_pos (rng_pos st + 3) st
  /\ row_store row = sid
  /\ cfg !! "name" = Some (row_store_name row)
  /\ row_date row = Calendar.strftime_ymd date
  /\ row_weekday row = Calendar.strftime_A date.
Proof.
  intros H. unfold forecast_sku in H. repeat run_step.
  cbn. repeat split; try assumption.
  destruct st. unfold set_rng_pos. cbn. f_equal. lia.
Qed.

Lemma inner_loop_effect sid cfg range date skus : forall acc st acc' st',
  inner_loop sid cfg range date skus acc st = (Ok acc', st') ->
  st' = set_rng_pos (rng_pos st + 3 * length skus) st
  /\ exists new,
       acc' = acc ++ new
       /\ length new = length skus
       /\ Forall (fun row =>
                    row_store row = sid
                    /\ cfg !! "name" = Some (row_store_name row)
                    /\ row_date row = Calendar.strftime_ymd date
                    /\ row_weekday row = Calendar.strftime_A date) new.
Proof.
  induction skus as [|sku skus IH]; intros acc st acc' st' H.
  - cbn in H. apply ret_Ok in H as [-> ->]. split.
    + destruct st. unfold set_rng_pos. cbn. f_equal. lia.
    + exists []. rewrite app_nil_r. auto.
  - cbn [inner_loop foldM] in H.
    apply bind_Ok in H as (acc1 & st1 & Hbody & H).
    apply bind_Ok in Hbody as (row & st2 & Hrow & Hret).
    apply ret_Ok in Hret as [-> ->].
    apply forecast_sku_effect in Hrow as (-> & Hrow).
    apply IH in H as (-> & new & -> & Hlen & Hall). split.
    + destruct st. unfold set_rng_pos. cbn. f_equal. lia.
    + exists (row :: new). rewrite <- app_assoc. cbn. split; [reflexivity|].
      split; [lia|]. constructor; assumption.
Qed.

Lemma outer_loop_effect sid cfg range skus count : forall first acc st acc' st',
  outer_loop sid cfg range skus (map Z.of_nat (seq first count)) acc st = (Ok acc', st') ->
  st' = set_clock_pos (clock_pos st + count)
          (set_rng_pos (rng_pos st + 3 * (count * length skus)) st)
  /\ exists new,
       acc' = acc ++ new
       /\ length new = (count * length skus)%nat
       /\ Forall (fun row => row_store row = sid
                             /\ cfg !! "name" = Some (row_store_name row)) new
       /\ map row_date new = loop_dates st (length skus) first count.
Proof.
  induction count as [|count IH]; intros first acc st acc' st' H.
  - cbn in H. apply ret_Ok in H as [-> ->]. split.
    + destruct st. unfold set_clock_pos, set_rng_pos. cbn. f_equal; lia.
    + exists []. rewrite app_nil_r. auto.
  - cbn [seq map outer_loop foldM] in H.
    apply bind_Ok in H as (acc1 & st1 & Hbody & H).
    apply bind_Ok in Hbody as (today & st2 & Hnow & Hinner).
    unfold now in Hnow. injection Hnow as <- <-.
    apply inner_loop_effect in Hinner as (-> & new1 & -> & Hlen1 & Hall1).
    apply IH in H as (-> & new2 & -> & Hlen2 & Hall2 & Hdates). split.
    + destruct st. unfold set_clock_pos, set_rng_pos. cbn. f_equal; lia.
    + exists (new1 ++ new2). rewrite <- app_assoc. split; [reflexivity|].
      split; [rewrite length_app; lia|]. split.
      * apply Forall_app. split; [|exact Hall2].
        eapply List.Forall_impl; [|exact Hall1]. intros row (? & ? & _). auto.
      * rewrite map_app, Hdates. unfold loop_dates. cbn [seq map concat].
        rewrite !Nat.add_0_r. f_equal.
        -- rewrite <- Hlen1. clear - Hall1.
           induction Hall1 as [|row new1 (_ & _ & Hd & _) _ IH']; [reflexivity|].
           cbn. rewrite Hd, IH'. reflexivity.
        -- f_equal. rewrite <- seq_shift, map_map. apply map_ext. intros i.
           cbn. do 3 f_equal; [f_equal; lia | lia].
Qed.

(** ** The forecast of one store, step by step *)

Lemma store_forecast_effect sid days st df st' :
  is_active st sid = true ->
  get_store_forecast sid (Some days) st = (Ok df, st') ->
  st' = set_clock_pos (clock_pos st + Z.to_nat days)
          (set_rng_pos (rng_pos st + 3 * (Z.to_nat days * 6)) st)
  /\ length (frame_rows df) = (Z.to_nat days * 6)%nat
  /\ df = pd_DataFrame (frame_rows df)
  /\ (exists c, config_of st sid = Some c
                /\ Forall (fun row => row_store row = sid
                                      /\ c !! "name" = Some (row_store_name row))
                     (frame_rows df))
  /\ map row_date (frame_rows df) = loop_dates st 6 0 (Z.to_nat days).
Proof.
  unfold is_active, config_of. intros Hact Hrun.
  destruct (stores st !! sid) as [r|] eqn:Hr; [|discriminate].
  destruct (heap st !! r) as [c|] eqn:Hc; [|discriminate].
  rewrite (get_store_forecast_active sid days r c st Hr Hc Hact) in Hrun.
  rewrite (generate_unfold sid days r c st Hr Hc) in Hrun.
  apply bind_Ok in Hrun as (data & s1 & Hloop & Hret).
  apply ret_Ok in Hret as [-> ->].
  destruct (assortment_base (store_type c)) as [Hsix _].
  apply outer_loop_effect in Hloop as (-> & new & -> & Hlen & Hall & Hdates).
  rewrite Hsix in *. cbn [app]. rewrite !frame_rows_pd_DataFrame.
  split; [reflexivity|]. split; [exact Hlen|]. split; [reflexivity|].
  split; [exists c; split; [reflexivity | exact Hall] | exact Hdates].
Qed.


(** ** The network forecast *)

Lemma frame_rows_pd_concat a b :
  frame_rows (pd_concat a b) = frame_rows a ++ frame_rows b.
Proof.
  destruct a as [|x], b as [|y]; cbn; try reflexivity. rewrite app_nil_r. reflexivity.
Qed.

Lemma built_pd_concat a b : built a -> built b -> built (pd_concat a b).
Proof.
  unfold built. destruct a as [|x], b as [|y]; cbn; intros Ha Hb; try assumption.
  destruct x; [discriminate Ha|]. reflexivity.
Qed.

Lemma is_active_after_forecast st a b sid :
  is_active (set_clock_pos a (set_rng_pos b st)) sid = is_active st sid.
Proof. reflexivity. Qed.

Lemma active_ids_after_forecast st a b ids :
  active_ids (set_clock_pos a (set_rng_pos b st)) ids = active_ids st ids.
Proof. reflexivity. Qed.

(** What a returned network forecast is made of. *)
Lemma network_loop_Ok days ids : forall acc st df st',
  network_loop days ids acc st = (Ok df, st') ->
  built acc ->
  st' = set_clock_pos (clock_pos st + length (active_ids st ids) * Z.to_nat days)
          (set_rng_pos (rng_pos st
                        + 3 * (length (active_ids st ids) * (Z.to_nat days * 6))) st)
  /\ built df
  /\ (forall sid, In sid ids -> is_Some (config_of st sid))
  /\ exists new,
       frame_rows df = frame_rows acc ++ new
       /\ map row_store new
          = concat (map (fun sid => replicate (Z.to_nat days * 6) sid) (active_ids st ids)).
Proof.
  induction ids as [|sid ids IH]; intros acc st df st' H Hacc.
  - cbn in H. apply ret_Ok in H as [-> ->]. split.
    { destruct st. unfold set_clock_pos, set_rng_pos. cbn. f_equal; lia. }
    split; [exact Hacc|]. split; [intros ? []|].
    exists []. rewrite app_nil_r. auto.
  - cbn [network_loop foldM] in H.
    apply bind_Ok in H as (acc1 & st1 & Hbody & H).
    apply bind_Ok in Hbody as (r & s1 & Hr & Hbody). apply store_ref_Ok in Hr as [Hr ->].
    apply bind_Ok in Hbody as (c & s2 & Hc & Hbody). apply deref_Ok in Hc as [Hc ->].
    assert (Hcfg : config_of st sid = Some c) by (unfold config_of; rewrite Hr; exact Hc).
    assert (Hact : is_active st sid = truthy (dict_get c "active" (VBool true))).
    { unfold is_active. rewrite Hcfg. reflexivity. }
    unfold active_ids in *. cbn [List.filter]. rewrite Hact.
    destruct (truthy (dict_get c "active" (VBool true))) eqn:Htruthy.
    + apply bind_Ok in Hbody as (sf & s3 & Hsf & Hret).
      apply ret_Ok in Hret as [-> ->].
      apply store_forecast_effect in Hsf as (-> & Hlen & Hbuilt & (c' & _ & Hall) & _);
        [|rewrite Hact; reflexivity].
      apply IH in H as (-> & Hdf & Hknown & new & Hrows & Hstores);
        [|apply built_pd_concat; assumption].
      fold (active_ids (set_clock_pos (clock_pos st + Z.to_nat days)
              (set_rng_pos (rng_pos st + 3 * (Z.to_nat days * 6)) st)) ids) in *.
      rewrite active_ids_after_forecast in *. unfold active_ids in *.
      split.
      { destruct st. unfold set_clock_pos, set_rng_pos. cbn. f_equal; lia. }
      split; [exact Hdf|]. split.
      { intros x [<-|Hx]; [rewrite Hcfg; eauto | apply (Hknown x Hx)]. }
      exists (frame_rows sf ++ new). split.
      * rewrite Hrows, frame_rows_pd_concat, app_assoc. reflexivity.
      * cbn [map concat]. rewrite map_app, Hstores. f_equal.
        rewrite <- Hlen. clear - Hall.
        induction Hall as [|row rows [Hs _] _ IH']; [reflexivity|].
        cbn. rewrite Hs, IH'. reflexivity.
    + apply ret_Ok in Hbody as [-> ->].
      apply IH in H as (-> & Hdf & Hknown & new & Hrows & Hstores); [|exact Hacc].
      split; [reflexivity|]. split; [exact Hdf|]. split.
      { intros x [<-|Hx]; [rewrite Hcfg; eauto | apply (Hknown x Hx)]. }
      exists new. auto.
Qed.


Lemma config_of_config_at st sid :
  bool_decide (is_Some (config_of st sid)) = true ->
  config_of st sid = Some (config_at st sid).
Proof.
  intros H. apply bool_decide_eq_true in H. destruct H as [c Hc].
  unfold config_at. rewrite Hc. reflexivity.
Qed.

Lemma get_network_forecast_unfold ids forecast_days :
  get_network_forecast ids forecast_days
  = network_loop (default 7 forecast_days) ids NoColumns.
Proof. reflexivity. Qed.


Lemma length_concat_replicate {A} (n : nat) (l : list A) :
  length (concat (map (fun x => replicate n x) l)) = (length l * n)%nat.
Proof.
  induction l as [|x l IH]; [reflexivity|].
  cbn. rewrite length_app, length_replicate, IH. reflexivity.
Qed.



(** X2. A network forecast that returns has read the clock once per day
    and active store and drawn three random numbers per row; the registry,
    the configuration file and the log are as before. *)
Theorem network_forecast_effect (st : state) (store_ids : list string)
    (forecast_days : option Z) (df : DataFrame) (st' : state) :
  get_network_forecast store_ids forecast_days st = (Ok df, st') ->
  st' = set_clock_pos
          (clock_pos st
           + length (active_ids st store_ids) * Z.to_nat (default 7 forecast_days))
          (set_rng_pos
             (rng_pos st + 3 * length (frame_rows df)) st)
  /\ (forall sid, In sid store_ids -> is_Some (config_of st sid)).
Proof.
  intros Hrun. rewrite get_network_forecast_unfold in Hrun.
  apply network_loop_Ok in Hrun as (-> & _ & Hknown & new & Hrows & Hstores); [|reflexivity].
  split; [|exact Hknown].
  cbn [frame_rows app] in Hrows. rewrite Hrows.
  rewrite <- (length_map row_store), Hstores, length_concat_replicate. reflexivity.
Qed.

Lemma network_forecast_effect_witness :
  snd network_run
  = set_clock_pos
      (clock_pos (demo_state womens_day_2025)
       + length (active_ids (demo_state womens_day_2025) default_order)
         * Z.to_nat (default 7 (Some 2)))
      (set_rng_pos
         (rng_pos (demo_state womens_day_2025) + 3 * length (frame_rows (returned network_run)))
         (demo_state womens_day_2025))
  /\ (forall sid, In sid default_order ->
        is_Some (config_of (demo_state womens_day_2025) sid)).
Proof.
  apply (network_forecast_effect (demo_state womens_day_2025) default_order (Some 2)
           (returned network_run) (snd network_run)).
  apply run_eq. vm_compute. reflexivity.
Defined.

Lemma length_zero_nil {A} (l : list A) : length l = 0%nat -> l = [].
Proof. destruct l; [reflexivity | discriminate]. Qed.

(** X3. Consolidating a network forecast works exactly when it has rows:
    with no day or no active store the forecast is a frame without columns
    and [get_consolidation_opportunities] raises the KeyError of its
    first grouping column. *)
Theorem network_consolidation (st : state) (store_ids : list string)
    (forecast_days : option Z) (df : DataFrame) (st' : state) :
  get_network_forecast store_ids forecast_days st = (Ok df, st') ->
  get_consolidation_opportunities df st'
  = if (0 <? default 7 forecast_days)
       && negb (length (active_ids st store_ids) =? 0)%nat
    then (Ok (consolidate (frame_rows df)), st')
    else (Raise (KeyError "Дата"), st').
Proof.
  intros Hrun. rewrite get_network_forecast_unfold in Hrun.
  apply network_loop_Ok in Hrun as (_ & Hbuilt & _ & new & Hrows & Hstores); [|reflexivity].
  cbn [frame_rows app] in Hrows. rewrite <- Hrows in Hstores.
  apply (f_equal (@length string)) in Hstores.
  rewrite length_map, length_concat_replicate in Hstores.
  destruct (Z.ltb_spec 0 (default 7 forecast_days)) as [Hpos|Hneg];
    destruct (Nat.eqb_spec (length (active_ids st store_ids)) 0) as [Hnone|Hsome];
    cbn [andb negb].
  - rewrite Hnone in Hstores. apply length_zero_nil in Hstores.
    rewrite Hbuilt, Hstores. reflexivity.
  - destruct (frame_rows df) as [|row rows] eqn:Hdf.
    + cbn in Hstores. nia.
    + rewrite Hbuilt, Hdf. reflexivity.
  - rewrite Hnone in Hstores. apply length_zero_nil in Hstores.
    rewrite Hbuilt, Hstores. reflexivity.
  - replace (Z.to_nat (default 7 forecast_days)) with 0%nat in Hstores by lia.
    rewrite Nat.mul_0_r in Hstores. apply length_zero_nil in Hstores.
    rewrite Hbuilt, Hstores. reflexivity.
Qed.

Lemma network_consolidation_witness :
  get_consolidation_opportunities
    (returned (get_network_forecast default_order (Some 0) (demo_state womens_day_2025)))
    (snd (get_network_forecast default_order (Some 0) (demo_state womens_day_2025)))
  = if (0 <? default 7 (Some 0))
       && negb (length (active_ids (demo_state womens_day_2025) default_order) =? 0)%nat
    then (Ok (consolidate
                (frame_rows
                   (returned (get_network_forecast default_order (Some 0)
                                (demo_state womens_day_2025))))),
          snd (get_network_forecast default_order (Some 0) (demo_state womens_day_2025)))
    else (Raise (KeyError "Дата"),
          snd (get_network_forecast default_order (Some 0) (demo_state womens_day_2025))).
Proof.
  apply (network_consolidation (demo_state womens_day_2025) default_order (Some 0)).
  apply run_eq. vm_compute. reflexivity.
Defined.

(** ** More on the forecast of one store *)

(** X4. No day, no row: for [days <= 0] the forecast of a registered,
    active store is the frame without columns, whatever its configuration
    holds, and the state is untouched: no clock reading, no draw. *)
Theorem forecast_without_days (st : state) (store_id : string) (days : Z) (c : dict) :
  config_of st store_id = Some c ->
  truthy (dict_get c "active" (VBool true)) = true ->
  days <= 0 ->
  get_store_forecast store_id (Some days) st = (Ok NoColumns, st).
Proof.
  unfold config_of. intros Hcfg Hact Hdays.
  destruct (stores st !! store_id) as [r|] eqn:Hr; [|discriminate].
  rewrite (get_store_forecast_active store_id days r c st Hr Hcfg Hact).
  rewrite (generate_unfold store_id days r c st Hr Hcfg).
  unfold py_range. replace (Z.to_nat days) with 0%nat by lia. reflexivity.
Qed.

Lemma forecast_without_days_witness :
  get_store_forecast "almaty_1" (Some (-3)) bare_state = (Ok NoColumns, bare_state).
Proof.
  apply (forecast_without_days bare_state "almaty_1" (-3)
           (config_at bare_state "almaty_1")).
  - apply config_of_config_at. vm_compute. reflexivity.
  - vm_compute. reflexivity.
  - lia.
Defined.

(** X5. A forecast that returns for an active store has read the clock
    once per day and drawn three random numbers per row (base demand,
    weather, stock); nothing else of the state has changed. *)
Theorem forecast_consumption (st : state) (store_id : string) (days : Z)
    (df : DataFrame) (st' : state) :
  is_active st store_id = true ->
  get_store_forecast store_id (Some days) st = (Ok df, st') ->
  st' = set_clock_pos (clock_pos st + Z.to_nat days)
          (set_rng_pos (rng_pos st + 3 * length (frame_rows df)) st).
Proof.
  intros Hact Hrun.
  apply store_forecast_effect in Hrun as (-> & Hlen & _); [|exact Hact].
  rewrite Hlen. reflexivity.
Qed.

Lemma forecast_consumption_witness :
  snd demo_run
  = set_clock_pos (clock_pos (demo_state womens_day_2025) + Z.to_nat 1)
      (set_rng_pos (rng_pos (demo_state womens_day_2025)
                    + 3 * length (frame_rows (returned demo_run)))
         (demo_state womens_day_2025)).
Proof.
  apply (forecast_consumption (demo_state womens_day_2025) "almaty_1" 1
           (returned demo_run) (snd demo_run)).
  - vm_compute. reflexivity.
  - apply run_eq. vm_compute. reflexivity.
Defined.

(** X6. The rows of a forecast name the store and carry the name its
    configuration holds; the six rows of the [i]-th day are dated with the
    date the clock gave at the [i]-th reading plus [i] days. *)
Theorem forecast_rows_dated (st : state) (store_id : string) (days : Z)
    (df : DataFrame) (st' : state) :
  is_active st store_id = true ->
  get_store_forecast store_id (Some days) st = (Ok df, st') ->
  map row_date (frame_rows df) = loop_dates st 6 0 (Z.to_nat days)
  /\ exists c, config_of st store_id = Some c
               /\ Forall (fun row => row_store row = store_id
                                     /\ c !! "name" = Some (row_store_name row))
                    (frame_rows df).
Proof.
  intros Hact Hrun.
  apply store_forecast_effect in Hrun as (_ & _ & _ & Hrows & Hdates); [|exact Hact].
  split; assumption.
Qed.

Lemma forecast_rows_dated_witness :
  map row_date (frame_rows (returned demo_run))
  = loop_dates (demo_state womens_day_2025) 6 0 (Z.to_nat 1)
  /\ exists c, config_of (demo_state womens_day_2025) "almaty_1" = Some c
               /\ Forall (fun row => row_store row = "almaty_1"
                                     /\ c !! "name" = Some (row_store_name row))
                    (frame_rows (returned demo_run)).
Proof.
  apply (forecast_rows_dated (demo_state womens_day_2025) "almaty_1" 1
           (returned demo_run) (snd demo_run)).
  - vm_compute. reflexivity.
  - apply run_eq. vm_compute. reflexivity.
Defined.

(** When midnight passes between the first and the second day of the
    loop, the second day is dated two days after the first: the 9th of
    March gets no row. *)
Example forecast_across_midnight :
  map row_date
    (frame_rows (returned (get_store_forecast "almaty_1" (Some 2) midnight_state)))
  = replicate 6 "2025-03-08" ++ replicate 6 "2025-03-10".
Proof. vm_compute. reflexivity. Qed.




(** X8. A registered, active store whose configuration has no
    [seasonal_multipliers] cannot be forecast for a single day: the call
    raises the KeyError of that key, after one clock reading and one
    draw. *)
Theorem forecast_needs_seasonal_table (st : state) (store_id : string) (days : Z)
    (c : dict) :
  config_of st store_id = Some c ->
  truthy (dict_get c "active" (VBool true)) = true ->
  c !! "seasonal_multipliers" = None ->
  1 <= days ->
  get_store_forecast store_id (Some days) st
  = (Raise (KeyError "seasonal_multipliers"),
     set_rng_pos (S (rng_pos st)) (set_clock_pos (S (clock_pos st)) st)).
Proof.
  unfold config_of. intros Hcfg Hact Hnone Hdays.
  destruct (stores st !! store_id) as [r|] eqn:Hr; [|discriminate].
  rewrite (get_store_forecast_active store_id days r c st Hr Hcfg Hact).
  rewrite (generate_unfold store_id days r c st Hr Hcfg).
  destruct (assortment_base (store_type c)) as [Hsix Hrange].
  destruct (fst (assortment (store_type c))) as [|sku skus] eqn:Hskus; [discriminate Hsix|].
  unfold py_range. destruct (Z.to_nat days) as [|n] eqn:Hn; [lia|].
  cbn [seq map]. apply bind_raise.
  cbn [outer_loop foldM]. apply bind_raise.
  erewrite bind_run by reflexivity.
  cbn [inner_loop foldM]. apply bind_raise. apply bind_raise.
  unfold forecast_sku.
  erewrite bind_run by (apply randint_run; lia).
  apply bind_raise. unfold getitem. rewrite Hnone. reflexivity.
Qed.

Lemma forecast_needs_seasonal_table_witness :
  get_store_forecast "almaty_1" (Some 7) bare_state
  = (Raise (KeyError "seasonal_multipliers"),
     set_rng_pos (S (rng_pos bare_state)) (set_clock_pos (S (clock_pos bare_state)) bare_state)).
Proof.
  apply (forecast_needs_seasonal_table bare_state "almaty_1" 7
           (config_at bare_state "almaty_1")).
  - apply config_of_config_at. vm_compute. reflexivity.
  - vm_compute. reflexivity.
  - vm_compute. reflexivity.
  - lia.
Defined.

(** ** More on registration *)

(** The state after a registration that passed the validation. *)
Lemma add_new_store_success st sid r before :
  heap st !! r = Some before -> missing_field before = None ->
  add_new_store sid r st
  = (Ok true,
     if disk_writable st
     then set_log (log st ++ [mkLog INFO ("Добавлен новый магазин: " +:+ sid) None])
            (set_disk (Some (snapshot (registered sid r before st)))
               (registered sid r before st))
     else set_log (log st ++ [mkLog ERROR "Ошибка сохранения конфигурации: " (Some OSError);
                              mkLog INFO ("Добавлен новый магазин: " +:+ sid) None])
            (registered sid r before st)).
Proof.
  intros Hr Hmiss. unfold add_new_store, try_except.
  erewrite bind_run.
  2:{ rewrite (validation_run r before required_fields st Hr).
      fold (missing_field before). rewrite Hmiss. reflexivity. }
  erewrite bind_run by (apply (defaulting_run r default_values before st Hr)).
  erewrite bind_run by reflexivity.
  fold (registered sid r before st).
  unfold _save_config, try_except.
  destruct (disk_writable st) eqn:Hw.
  - erewrite bind_run.
    2:{ cbn [disk_writable registered set_stores set_heap]. rewrite Hw. reflexivity. }
    erewrite bind_run by reflexivity. reflexivity.
  - erewrite bind_run.
    2:{ cbn [disk_writable registered set_stores set_heap]. rewrite Hw. reflexivity. }
    erewrite bind_run by reflexivity. cbn. rewrite <- app_assoc. reflexivity.
Qed.

(** A successful call passed the validation of a dictionary. *)
Lemma add_new_store_true st sid r st' :
  add_new_store sid r st = (Ok true, st') ->
  exists before, heap st !! r = Some before /\ missing_field before = None.
Proof.
  intros Hrun.
  destruct (heap st !! r) as [cfg|] eqn:Hr.
  2:{ pose proof (add_new_store_not_a_dict st sid r Hr) as H.
      rewrite Hrun in H. discriminate H. }
  destruct (missing_field cfg) as [f|] eqn:Hmiss; [|eauto].
  rewrite (add_new_store_invalid st sid r cfg f Hr Hmiss) in Hrun. discriminate Hrun.
Qed.






(** X11. Registration checks no identifier: a successful call leaves
    every other store and every other object as they were, adds one store
    when the identifier is new, and silently replaces the entry of an
    identifier already registered, the count staying the same. *)
Theorem registration_overwrites (st : state) (store_id : string) (r : loc) (st' : state) :
  add_new_store store_id r st = (Ok true, st') ->
  (forall other, other <> store_id -> stores st' !! other = stores st !! other)
  /\ (forall r', r' <> r -> heap st' !! r' = heap st !! r')
  /\ size (stores st')
     = (if bool_decide (is_Some (stores st !! store_id))
        then size (stores st) else S (size (stores st))).
Proof.
  intros Hrun.
  destruct (add_new_store_true st store_id r st' Hrun) as (before & Hr & Hmiss).
  destruct (add_new_store_valid st store_id r before Hr Hmiss) as (st2 & Hrun2 & Hheap & Hstores).
  rewrite Hrun in Hrun2. injection Hrun2 as <-.
  rewrite Hheap, Hstores. split; [|split].
  - intros other Hne. apply lookup_insert_ne. congruence.
  - intros r' Hne. apply lookup_insert_ne. congruence.
  - destruct (stores st !! store_id) as [old|] eqn:Hold.
    + rewrite bool_decide_true by eauto.
      rewrite <- (insert_delete_id (stores st) store_id old Hold) at 2.
      rewrite <- (insert_delete_eq (stores st)).
      rewrite !map_size_insert_None by apply lookup_delete_eq. reflexivity.
    + rewrite bool_decide_false by (intros [? ?]; discriminate).
      apply map_size_insert_None, Hold.
Qed.

Lemma registration_overwrites_witness :
  (forall other, other <> "almaty_1" ->
     stores (snd (add_new_store "almaty_1" caller_loc example_caller)) !! other
     = stores example_caller !! other)
  /\ (forall r', r' <> caller_loc ->
        heap (snd (add_new_store "almaty_1" caller_loc example_caller)) !! r'
        = heap example_caller !! r')
  /\ size (stores (snd (add_new_store "almaty_1" caller_loc example_caller)))
     = (if bool_decide (is_Some (stores example_caller !! "almaty_1"))
        then size (stores example_caller) else S (size (stores example_caller))).
Proof.
  apply (registration_overwrites example_caller "almaty_1" caller_loc).
  apply run_eq. vm_compute. reflexivity.
Defined.

Lemma missing_field_None before field :
  missing_field before = None -> In field required_fields -> is_Some (before !! field).
Proof.
  unfold missing_field. intros Hmiss Hin.
  eapply find_none in Hmiss; [|exact Hin].
  apply negb_false_iff in Hmiss. unfold contains in Hmiss.
  destruct (before !! field); [eauto | discriminate].
Qed.



Lemma with_defaults_complete items : forall (d : dict),
  (forall k, In k (map fst items) -> is_Some (d !! k)) -> with_defaults items d = d.
Proof.
  induction items as [|[k v] items IH]; intros d H; [reflexivity|].
  cbn [with_defaults fold_left fst snd].
  assert (Hk : contains d k = true).
  { unfold contains. destruct (H k (or_introl eq_refl)) as [x ->]. reflexivity. }
  rewrite Hk. apply IH. intros k' Hk'. apply H. right. exact Hk'.
Qed.

Lemma with_defaults_all_present (d : dict) k :
  In k (map fst default_values) -> is_Some (with_defaults default_values d !! k).
Proof.
  intros Hk. apply in_map_iff in Hk as ([k' v] & <- & Hin). cbn [fst].
  rewrite (with_defaults_field d k' v Hin). eauto.
Qed.

(** X13. Registration is idempotent: registering the same dictionary
    under the same identifier a second time succeeds again and changes
    neither the registry nor the dictionary. *)
Theorem registration_idempotent (st : state) (store_id : string) (r : loc) (st1 : state) :
  add_new_store store_id r st = (Ok true, st1) ->
  exists st2,
    add_new_store store_id r st1 = (Ok true, st2)
    /\ heap st2 = heap st1 /\ stores st2 = stores st1.
Proof.
  intros Hrun.
  destruct (add_new_store_true st store_id r st1 Hrun) as (before & Hr & Hmiss).
  destruct (add_new_store_valid st store_id r before Hr Hmiss) as (st' & Hrun' & Hheap & Hstores).
  rewrite Hrun in Hrun'. injection Hrun' as <-.
  set (after := with_defaults default_values before) in *.
  assert (Hr1 : heap st1 !! r = Some after) by (rewrite Hheap; apply lookup_insert_eq).
  assert (Hmiss1 : missing_field after = None).
  { unfold missing_field.
    destruct (List.find _ required_fields) as [f|] eqn:Hfind; [|reflexivity].
    apply find_some in Hfind as [Hin Hf].
    apply negb_true_iff, contains_false in Hf.
    pose proof (missing_field_None before f Hmiss Hin) as Hpresent.
    unfold after in Hf. rewrite with_defaults_present in Hf by exact Hpresent.
    rewrite Hf in Hpresent. destruct Hpresent; discriminate. }
  destruct (add_new_store_valid st1 store_id r after Hr1 Hmiss1)
    as (st2 & Hrun2 & Hheap2 & Hstores2).
  exists st2. split; [exact Hrun2|].
  rewrite Hheap2, Hstores2. split.
  - rewrite with_defaults_complete by (intros k Hk; apply with_defaults_all_present, Hk).
    apply insert_id, Hr1.
  - apply insert_id. rewrite Hstores. apply lookup_insert_eq.
Qed.

Lemma registration_idempotent_witness :
  exists st2,
    add_new_store "almaty_4" caller_loc
      (snd (add_new_store "almaty_4" caller_loc example_caller)) = (Ok true, st2)
    /\ heap st2 = heap (snd (add_new_store "almaty_4" caller_loc example_caller))
    /\ stores st2 = stores (snd (add_new_store "almaty_4" caller_loc example_caller)).
Proof.
  apply (registration_idempotent example_caller "almaty_4" caller_loc).
  apply run_eq. vm_compute. reflexivity.
Defined.

Lemma find_first {A} (p : A -> bool) (l : list A) x :
  List.find p l = Some x ->
  exists l1 l2, l = l1 ++ x :: l2 /\ p x = true /\ Forall (fun y => p y = false) l1.
Proof.
  induction l as [|a l IH]; [discriminate|]. cbn.
  destruct (p a) eqn:Ha.
  - intros [= <-]. exists [], l. auto.
  - intros H. destruct (IH H) as (l1 & l2 & -> & Hx & Hall).
    exists (a :: l1), l2. repeat split; [exact Hx | constructor; assumption].
Qed.

(** X14. A rejected registration reports one field only: the first one,
    in the order name, address, type, size_category, target_audience,
    avg_daily_visitors, that the dictionary lacks; what is missing after it
    goes unmentioned. *)
Theorem registration_reports_first_missing (st : state) (store_id : string) (r : loc)
    (before : dict) (st' : state) :
  heap st !! r = Some before ->
  add_new_store store_id r st = (Ok false, st') ->
  exists present field rest,
    required_fields = present ++ field :: rest
    /\ Forall (fun f => is_Some (before !! f)) present
    /\ before !! field = None
    /\ log st' = log st ++
         [mkLog ERROR ("Ошибка добавления магазина " +:+ store_id +:+ ": ")
            (Some (ValueError ("Отсутствует обязательное поле: " +:+ field)))].
Proof.
  intros Hr Hrun.
  destruct (missing_field before) as [f|] eqn:Hmiss.
  - rewrite (add_new_store_invalid st store_id r before f Hr Hmiss) in Hrun.
    injection Hrun as <-.
    apply find_first in Hmiss as (l1 & l2 & Heq & Hf & Hall).
    exists l1, f, l2. split; [exact Heq|]. split; [|split].
    + eapply List.Forall_impl; [|exact Hall]. intros x Hx.
      apply negb_false_iff in Hx. unfold contains in Hx.
      destruct (before !! x); [eauto | discriminate].
    + apply negb_true_iff, contains_false in Hf. exact Hf.
    + reflexivity.
  - rewrite (add_new_store_success st store_id r before Hr Hmiss) in Hrun.
    discriminate Hrun.
Qed.

Lemma registration_reports_first_missing_witness :
  exists present field rest,
    required_fields = present ++ field :: rest
    /\ Forall (fun f => is_Some (incomplete_config !! f)) present
    /\ incomplete_config !! field = None
    /\ log (snd (add_new_store "almaty_4" caller_loc
                   (with_caller_dict incomplete_config (demo_state womens_day_2025))))
       = log (with_caller_dict incomplete_config (demo_state womens_day_2025)) ++
         [mkLog ERROR ("Ошибка добавления магазина " +:+ "almaty_4" +:+ ": ")
            (Some (ValueError ("Отсутствует обязательное поле: " +:+ field)))].
Proof.
  apply (registration_reports_first_missing
           (with_caller_dict incomplete_config (demo_state womens_day_2025))
           "almaty_4" caller_loc incomplete_config).
  - apply lookup_insert_eq.
  - apply run_eq. vm_compute. reflexivity.
Defined.

(** ** Building the manager *)

Lemma alloc_list_spec l :
  (forall r, is_Some (fst (alloc_list l) !! r) ->
             (Pos.to_nat r <= size (fst (alloc_list l)))%nat)
  /\ (forall k r, snd (alloc_list l) !! k = Some r -> is_Some (fst (alloc_list l) !! r))
  /\ (forall k, omap (fun r => fst (alloc_list l) !! r) (snd (alloc_list l)) !! k
                = (list_to_map l : gmap string dict) !! k).
Proof.
  induction l as [|[k d] l (IHa & IHb & IHc)].
  - cbn. split; [intros r [x Hx]; rewrite lookup_empty in Hx; discriminate|].
    split; [intros k r Hk; rewrite lookup_empty in Hk; discriminate|].
    intros k. rewrite lookup_omap, !lookup_empty. reflexivity.
  - cbn [alloc_list foldr fst snd list_to_map]. fold (alloc_list l).
    set (h := fst (alloc_list l)) in *. set (s := snd (alloc_list l)) in *.
    set (r := Pos.of_succ_nat (size h)).
    assert (Hfresh : h !! r = None).
    { destruct (h !! r) eqn:E; [|reflexivity].
      assert (Hle : (Pos.to_nat r <= size h)%nat) by (apply IHa; eauto).
      unfold r in Hle. rewrite SuccNat2Pos.id_succ in Hle. lia. }
    split; [|split].
    + intros r' Hr'. rewrite map_size_insert_None by exact Hfresh.
      destruct (decide (r' = r)) as [->|Hne].
      * unfold r. rewrite SuccNat2Pos.id_succ. lia.
      * rewrite lookup_insert_ne in Hr' by congruence. specialize (IHa r' Hr'). lia.
    + intros k' r' Hk'. destruct (decide (k' = k)) as [->|Hne].
      * rewrite lookup_insert_eq in Hk'. injection Hk' as <-.
        rewrite lookup_insert_eq. eauto.
      * rewrite lookup_insert_ne in Hk' by congruence.
        destruct (decide (r' = r)) as [->|Hner]; [rewrite lookup_insert_eq; eauto|].
        rewrite lookup_insert_ne by congruence. eapply IHb, Hk'.
    + intros k'. rewrite lookup_omap. destruct (decide (k' = k)) as [->|Hne].
      * rewrite !lookup_insert_eq. cbn. apply lookup_insert_eq.
      * rewrite !lookup_insert_ne by congruence.
        rewrite <- IHc, lookup_omap.
        destruct (s !! k') as [r'|] eqn:Hs; [|reflexivity]. cbn.
        apply lookup_insert_ne. intros Heq.
        destruct (IHb k' r' Hs) as [x Hx]. rewrite <- Heq in Hx.
        pose proof (eq_trans (eq_sym Hfresh) Hx) as Habs. discriminate Habs.
Qed.

Lemma alloc_stores_snapshot (configs : gmap string dict) :
  omap (fun r => fst (alloc_stores configs) !! r) (snd (alloc_stores configs)) = configs.
Proof.
  apply map_eq. intros k.
  change (alloc_stores configs) with (alloc_list (map_to_list configs)).
  destruct (alloc_list_spec (map_to_list configs)) as (_ & _ & H).
  rewrite H, list_to_map_to_list. reflexivity.
Qed.

(** X15. Building the manager makes the registry the content of the
    configuration file: the stores of the file are the registered stores,
    each with its configuration.  Without a file the three default stores
    are registered and the file is created; when it cannot be created the
    constructor fails. *)
Theorem manager_matches_file (st : state) :
  match disk st with
  | Some config =>
      exists st', __init__ st = (Ok tt, st')
                  /\ snapshot st' = config /\ disk st' = Some config
  | None =>
      if disk_writable st
      then exists st', __init__ st = (Ok tt, st')
                       /\ snapshot st' = _create_default_config
                       /\ disk st' = Some _create_default_config
      else __init__ st = (Raise OSError, st)
  end.
Proof.
  unfold __init__, _load_stores_config, bind.
  destruct (disk st) as [config|] eqn:Hdisk.
  - eexists. split; [reflexivity|]. split; [|exact Hdisk].
    unfold snapshot. cbn [heap stores global_settings].
    rewrite alloc_stores_snapshot. destruct config; reflexivity.
  - destruct (disk_writable st); [|reflexivity].
    eexists. split; [reflexivity|]. split; [|reflexivity].
    unfold snapshot. cbn [heap stores global_settings].
    rewrite alloc_stores_snapshot. reflexivity.
Qed.

(** A file left by an earlier run is what the manager starts from. *)
Example manager_from_file :
  config_of (snd (__init__ file_state)) "astana_1" = Some new_store_config
  /\ config_of (snd (__init__ file_state)) "almaty_1" = None.
Proof. split; vm_compute; reflexivity. Qed.

(** ** Performance metrics *)












(** The closed store is registered and not counted. *)
Example closed_store_not_counted :
  length all_ids = 4%nat /\ active_ids closed_state all_ids = default_order.
Proof. split; vm_compute; reflexivity. Qed.

(** ** Weather and season *)


(** X19. The season of a date is decided by its month alone, and the
    four seasons share the year in threes: December to February is
    winter, March to May spring, June to August summer, and autumn is
    what remains, September to November. *)
Theorem season_of_month (date : Z) :
  let m := Calendar.month date in
  (_get_season date = "winter" <-> m = 12 \/ m = 1 \/ m = 2)
  /\ (_get_season date = "spring" <-> 3 <= m <= 5)
  /\ (_get_season date = "summer" <-> 6 <= m <= 8)
  /\ (_get_season date = "autumn" <-> 9 <= m <= 11).
Proof.
  intros m. pose proof (proj1 (month_day_of_date date)) as Hm. fold m in Hm.
  unfold _get_season. fold m.
  assert (Hcases : m = 1 \/ m = 2 \/ m = 3 \/ m = 4 \/ m = 5 \/ m = 6 \/ m = 7
                   \/ m = 8 \/ m = 9 \/ m = 10 \/ m = 11 \/ m = 12) by lia.
  clear Hm.
  repeat (destruct Hcases as [->|Hcases]); [..|rewrite Hcases];
    cbn; repeat split; intros; try lia; try discriminate; auto.
Qed.

(** ** More on consolidation *)

(** *** The order of the rows does not matter *)

Lemma key_compare_gt_lt d1 s1 d2 s2 :
  key_compare d1 s1 d2 s2 = Gt -> key_compare d2 s2 d1 s1 = Lt.
Proof. intros H. rewrite key_compare_antisym, H. reflexivity. Qed.

Lemma key_compare_lt_gt d1 s1 d2 s2 :
  key_compare d1 s1 d2 s2 = Lt -> key_compare d2 s2 d1 s1 = Gt.
Proof. intros H. rewrite key_compare_antisym, H. reflexivity. Qed.

Lemma add_row_comm r1 r2 groups :
  add_row r1 (add_row r2 groups) = add_row r2 (add_row r1 groups).
Proof.
  induction groups as [|h rest IH].
  - cbn. rewrite (key_compare_antisym (row_date r2)).
    destruct (key_compare (row_date r1) (row_sku r1) (row_date r2) (row_sku r2)) eqn:Hc;
      cbn; try reflexivity.
    apply key_compare_Eq in Hc as [-> ->]. f_equal. f_equal. lia.
  - cbn [add_row].
    destruct (key_compare (row_date r1) (row_sku r1) (g_date h) (g_sku h)) eqn:H1;
      destruct (key_compare (row_date r2) (row_sku r2) (g_date h) (g_sku h)) eqn:H2;
      cbn [add_row g_date g_sku g_purchase g_count]; rewrite ?H1, ?H2.
    + f_equal. f_equal; lia.
    + pose proof H1 as [Hd Hs]%key_compare_Eq.
      replace (key_compare (row_date r1) (row_sku r1) (row_date r2) (row_sku r2)) with Gt
        by (rewrite Hd, Hs; symmetry; apply key_compare_lt_gt, H2).
      cbn [add_row]. rewrite ?H1, ?H2. reflexivity.
    + reflexivity.
    + pose proof H2 as [Hd Hs]%key_compare_Eq.
      replace (key_compare (row_date r2) (row_sku r2) (row_date r1) (row_sku r1)) with Gt
        by (rewrite Hd, Hs; symmetry; apply key_compare_lt_gt, H1).
      cbn [add_row]. rewrite ?H1, ?H2. reflexivity.
    + rewrite (key_compare_antisym (row_date r2)).
      destruct (key_compare (row_date r1) (row_sku r1) (row_date r2) (row_sku r2)) eqn:Hc;
        cbn [CompOpp add_row]; rewrite ?H1, ?H2; try reflexivity.
      apply key_compare_Eq in Hc as [-> ->]. f_equal. f_equal. lia.
    + assert (Hc : key_compare (row_date r1) (row_sku r1) (row_date r2) (row_sku r2) = Lt)
        by (eapply key_compare_lt_trans; [exact H1 | apply key_compare_gt_lt, H2]).
      rewrite (key_compare_lt_gt _ _ _ _ Hc). cbn [add_row]. rewrite ?H1, ?H2. reflexivity.
    + reflexivity.
    + assert (Hc : key_compare (row_date r2) (row_sku r2) (row_date r1) (row_sku r1) = Lt)
        by (eapply key_compare_lt_trans; [exact H2 | apply key_compare_gt_lt, H1]).
      rewrite (key_compare_lt_gt _ _ _ _ Hc). cbn [add_row]. rewrite ?H1, ?H2. reflexivity.
    + rewrite IH. reflexivity.
Qed.

Lemma fold_add_row_permutation rows rows' :
  Permutation rows rows' ->
  forall groups,
    fold_left (fun gs r => add_row r gs) rows groups
    = fold_left (fun gs r => add_row r gs) rows' groups.
Proof.
  induction 1 as [|r l l' _ IH|r1 r2 l|l l' l'' _ IH1 _ IH2]; intros groups; cbn.
  - reflexivity.
  - apply IH.
  - rewrite add_row_comm. reflexivity.
  - rewrite IH1. apply IH2.
Qed.

Lemma groupby_agg_permutation rows rows' :
  Permutation rows rows' -> groupby_agg rows = groupby_agg rows'.
Proof. intros H. apply fold_add_row_permutation, H. Qed.

(** X20. Consolidation does not depend on the order of the rows of the
    forecast: the same rows in another order, as when the registry lists
    the stores differently, give the same opportunities with the same top
    items in the same order. *)
Theorem consolidation_order_irrelevant (rows rows' : list ForecastRow) (st : state) :
  Permutation rows rows' ->
  get_consolidation_opportunities (Table rows) st
  = get_consolidation_opportunities (Table rows') st.
Proof.
  intros Hperm. rewrite !consolidation_run.
  unfold consolidate, date_data. rewrite (groupby_agg_permutation rows rows' Hperm).
  reflexivity.
Qed.

Lemma consolidation_order_irrelevant_witness :
  get_consolidation_opportunities (Table sample_rows)
    (blank demo_tape (fun _ => womens_day_2025))
  = get_consolidation_opportunities (Table (rev sample_rows))
      (blank demo_tape (fun _ => womens_day_2025)).
Proof.
  apply (consolidation_order_irrelevant sample_rows (rev sample_rows)
           (blank demo_tape (fun _ => womens_day_2025))).
  apply Permutation_rev.
Defined.

(** *** The top items *)

Lemma insert_desc_perm g sorted : Permutation (insert_desc g sorted) (g :: sorted).
Proof.
  induction sorted as [|h t IH]; cbn; [reflexivity|].
  destruct (g_purchase h <=? g_purchase g); [reflexivity|].
  rewrite IH. apply perm_swap.
Qed.

Lemma insert_desc_descending g sorted :
  descending sorted -> descending (insert_desc g sorted).
Proof.
  unfold descending. induction sorted as [|h t IH]; cbn; intros Hs.
  - repeat constructor.
  - apply StronglySorted_inv in Hs as [Ht Hh].
    destruct (Z.leb_spec (g_purchase h) (g_purchase g)) as [Hle|Hgt].
    + constructor; [constructor; assumption|].
      constructor; [exact Hle|].
      eapply List.Forall_impl; [|exact Hh]. cbn. intros a Ha. lia.
    + constructor; [apply IH, Ht|].
      apply List.Forall_forall. intros x Hx.
      apply insert_desc_In in Hx as [->|Hx]; [lia|].
      rewrite List.Forall_forall in Hh. apply Hh, Hx.
Qed.

Lemma sorted_desc_spec frame :
  Permutation (foldr insert_desc [] frame) frame
  /\ descending (foldr insert_desc [] frame).
Proof.
  induction frame as [|g frame [IHp IHs]]; cbn.
  - split; [reflexivity | constructor].
  - split.
    + rewrite insert_desc_perm. constructor. exact IHp.
    + apply insert_desc_descending, IHs.
Qed.

Lemma nlargest_spec n frame :
  exists rest,
    Permutation (nlargest n frame ++ rest) frame
    /\ descending (nlargest n frame ++ rest)
    /\ length (nlargest n frame) = Nat.min n (length frame).
Proof.
  destruct (sorted_desc_spec frame) as [Hp Hs].
  exists (drop n (foldr insert_desc [] frame)). unfold nlargest.
  rewrite take_drop. split; [exact Hp|]. split; [exact Hs|].
  rewrite length_take. rewrite (Permutation_length Hp). reflexivity.
Qed.

Lemma consolidation_entry forecast_df st result st' date entry :
  get_consolidation_opportunities forecast_df st = (Ok result, st') ->
  result !! date = Some entry ->
  qualifying (frame_rows forecast_df) date <> []
  /\ entry = opportunity (qualifying (frame_rows forecast_df) date).
Proof.
  intros Hrun Hentry. destruct forecast_df as [|rows]; [discriminate Hrun|].
  rewrite consolidation_run in Hrun.
  assert (Hres : result = consolidate rows) by congruence. subst result.
  cbn [frame_rows]. rewrite consolidate_lookup in Hentry.
  destruct (qualifying rows date) as [|g gs]; [discriminate|].
  split; [discriminate | congruence].
Qed.

(** X21. The top items of a date are its five largest qualifying
    groups, or all of them when there are fewer: they are the head of the
    qualifying groups arranged in descending order of their purchase, so
    no group left out is larger than one that was taken. *)
Theorem top_items_largest (forecast_df : DataFrame) (st : state)
    (result : gmap string Opportunity) (st' : state) (date : string)
    (entry : Opportunity) :
  get_consolidation_opportunities forecast_df st = (Ok result, st') ->
  result !! date = Some entry ->
  exists rest,
    Permutation (top_items entry ++ rest) (qualifying (frame_rows forecast_df) date)
    /\ descending (top_items entry ++ rest)
    /\ length (top_items entry)
       = Nat.min 5 (length (qualifying (frame_rows forecast_df) date)).
Proof.
  intros Hrun Hentry.
  destruct (consolidation_entry _ _ _ _ _ _ Hrun Hentry) as [_ ->].
  cbn [opportunity top_items]. apply nlargest_spec.
Qed.

Lemma top_items_largest_witness :
  exists rest,
    Permutation (top_items market_entry ++ rest)
      (qualifying (frame_rows (Table market_rows)) "2025-03-08")
    /\ descending (top_items market_entry ++ rest)
    /\ length (top_items market_entry)
       = Nat.min 5 (length (qualifying (frame_rows (Table market_rows)) "2025-03-08")).
Proof.
  apply (top_items_largest (Table market_rows)
           (blank demo_tape (fun _ => womens_day_2025))
           (consolidate market_rows) (blank demo_tape (fun _ => womens_day_2025))
           "2025-03-08" market_entry).
  - apply consolidation_run.
  - vm_compute. reflexivity.
Defined.

(** Of the six groups that reach the threshold the smallest is left out;
    the seventh SKU never qualified. *)
Example market_top_items :
  map g_purchase (top_items market_entry) = [90; 80; 75; 70; 55]
  /\ length (qualifying market_rows "2025-03-08") = 6%nat
  /\ total_volume market_entry = 420.
Proof. split; [|split]; vm_compute; reflexivity. Qed.

(** *** What an entry says *)

Lemma add_row_from r groups g :
  In g (add_row r groups) ->
  (g_date g = row_date r /\ g_sku g = row_sku r)
  \/ exists h, In h groups /\ g_date g = g_date h /\ g_sku g = g_sku h.
Proof.
  intros H. apply add_row_keys in H as [H|H]; [left; exact H|].
  right. exists g. auto.
Qed.

Lemma groupby_agg_from_rows rows g :
  In g (groupby_agg rows) ->
  exists r, In r rows /\ row_date r = g_date g /\ row_sku r = g_sku g.
Proof.
  unfold groupby_agg.
  assert (H : forall groups,
             In g (fold_left (fun gs r => add_row r gs) rows groups) ->
             (exists r, In r rows /\ row_date r = g_date g /\ row_sku r = g_sku g)
             \/ In g groups).
  { induction rows as [|r rows IH]; intros groups Hin; cbn in Hin; [right; exact Hin|].
    destruct (IH _ Hin) as [(r' & Hr' & Hk)|Hg].
    - left. exists r'. split; [right; exact Hr' | exact Hk].
    - apply add_row_keys in Hg as [[Hd Hs]|Hg]; [|right; exact Hg].
      left. exists r. split; [left; reflexivity | auto]. }
  intros Hin. destruct (H [] Hin) as [Hr|[]]. exact Hr.
Qed.




(** *** The number of stores of a group *)

Lemma add_row_count r groups date sku :
  group_count (add_row r groups) date sku
  = group_count groups date sku + (if key_eqb date sku r then 1 else 0).
Proof.
  unfold group_count, key_eqb, same_key.
  induction groups as [|h rest IH]; cbn.
  - case_eqbs; cbn; lia.
  - destruct (key_compare _ _ _ _) eqn:Hc; cbn.
    + apply key_compare_Eq in Hc as [-> ->]. case_eqbs; cbn; lia.
    + case_eqbs; cbn; lia.
    + destruct (String.eqb (g_date h) date && String.eqb (g_sku h) sku); cbn;
        rewrite IH; lia.
Qed.

Lemma groupby_count rows date sku :
  group_count (groupby_agg rows) date sku = rows_counted rows date sku.
Proof.
  unfold groupby_agg.
  assert (H : forall groups,
             group_count (fold_left (fun gs r => add_row r gs) rows groups) date sku
             = group_count groups date sku + rows_counted rows date sku).
  { induction rows as [|r rows IH]; intros groups.
    - cbn [fold_left]. unfold rows_counted. cbn. lia.
    - cbn [fold_left]. rewrite IH, add_row_count.
      unfold rows_counted. cbn [List.filter].
      destruct (key_eqb date sku r); cbn [length]; lia. }
  rewrite H. reflexivity.
Qed.

Lemma sorted_group_count groups g :
  sorted_groups groups -> In g groups ->
  group_count groups (g_date g) (g_sku g) = g_count g.
Proof.
  unfold sorted_groups, group_count.
  induction groups as [|h rest IH]; intros Hs Hin; [destruct Hin|].
  apply StronglySorted_inv in Hs as [Hrest Hh].
  rewrite List.Forall_forall in Hh. cbn [List.filter].
  destruct Hin as [->|Hin].
  - unfold same_key at 1. rewrite !String.eqb_refl. cbn.
    assert (Hnone : List.filter (fun g0 => same_key g0 (g_date g) (g_sku g)) rest = []).
    { apply filter_none. intros x Hx. apply key_lt_not_same, Hh, Hx. }
    rewrite Hnone. cbn. lia.
  - assert (Hk : same_key h (g_date g) (g_sku g) = false).
    { pose proof (key_lt_not_same h g (Hh g Hin)) as Hn.
      unfold same_key in *.
      rewrite (String.eqb_sym (g_date h)), (String.eqb_sym (g_sku h)). exact Hn. }
    rewrite Hk. apply IH; assumption.
Qed.

Lemma rows_counted_pos rows r date sku :
  In r rows -> key_eqb date sku r = true -> 1 <= rows_counted rows date sku.
Proof.
  unfold rows_counted. intros Hin Hk.
  assert (Hf : In r (List.filter (key_eqb date sku) rows)) by (apply filter_In; auto).
  destruct (List.filter (key_eqb date sku) rows); [destruct Hf | cbn; lia].
Qed.

Lemma sorted_skus_NoDup (p : Group -> bool) date groups :
  sorted_groups groups ->
  NoDup (map g_sku
           (List.filter (fun g => String.eqb (g_date g) date && p g) groups)).
Proof.
  unfold sorted_groups. induction groups as [|h rest IH]; intros Hs; cbn.
  - constructor.
  - apply StronglySorted_inv in Hs as [Hrest Hh].
    destruct (String.eqb_spec (g_date h) date) as [Hd|Hd]; cbn [andb]; [|apply IH, Hrest].
    destruct (p h); [|apply IH, Hrest].
    cbn [map]. constructor; [|apply IH, Hrest].
    intros Hin. apply list_elem_of_In, in_map_iff in Hin as (x & Hsku & Hx).
    apply filter_In in Hx as [Hx Hk]. apply andb_true_iff in Hk as [Hxd _].
    apply String.eqb_eq in Hxd.
    rewrite List.Forall_forall in Hh.
    pose proof (key_lt_not_same h x (Hh x Hx)) as Hn. unfold same_key in Hn.
    rewrite Hsku, Hxd, Hd, !String.eqb_refl in Hn. discriminate Hn.
Qed.

Lemma qualifying_skus_NoDup rows date : NoDup (map g_sku (qualifying rows date)).
Proof. apply sorted_skus_NoDup, groupby_sorted. Qed.

(** X23. Each top item tells how many rows of the forecast were added
    up in it: its store count is the number of rows with its date and SKU,
    which is at least one, and no other top item of the date has the same
    SKU. *)
Theorem top_item_store_count (forecast_df : DataFrame) (st : state)
    (result : gmap string Opportunity) (st' : state) (date : string)
    (entry : Opportunity) :
  get_consolidation_opportunities forecast_df st = (Ok result, st') ->
  result !! date = Some entry ->
  (forall g, In g (top_items entry) ->
     g_date g = date
     /\ g_count g = rows_counted (frame_rows forecast_df) date (g_sku g)
     /\ 1 <= g_count g)
  /\ NoDup (map g_sku (top_items entry)).
Proof.
  intros Hrun Hentry.
  destruct (consolidation_entry _ _ _ _ _ _ Hrun Hentry) as [_ ->].
  set (rows := frame_rows forecast_df) in *.
  cbn [opportunity top_items]. split.
  - intros g Hg. apply nlargest_In in Hg.
    unfold qualifying in Hg. apply filter_In in Hg as [Hin Hk].
    apply andb_true_iff in Hk as [Hd _]. apply String.eqb_eq in Hd.
    split; [exact Hd|].
    assert (Hcount : g_count g = rows_counted rows date (g_sku g)).
    { rewrite <- groupby_count, <- Hd. symmetry.
      apply sorted_group_count; [apply groupby_sorted | exact Hin]. }
    split; [exact Hcount|]. rewrite Hcount.
    destruct (groupby_agg_from_rows rows g Hin) as (r & Hr & Hrd & Hrs).
    apply (rows_counted_pos rows r); [exact Hr|].
    unfold key_eqb. rewrite Hrd, Hrs, Hd, !String.eqb_refl. reflexivity.
  - destruct (nlargest_spec 5 (qualifying rows date)) as (rest & Hperm & _ & _).
    pose proof (qualifying_skus_NoDup rows date) as Hnd.
    rewrite <- Hperm, map_app in Hnd. apply NoDup_app in Hnd as [Hnd _]. exact Hnd.
Qed.

Lemma top_item_store_count_witness :
  (forall g, In g (top_items market_entry) ->
     g_date g = "2025-03-08"
     /\ g_count g = rows_counted (frame_rows (Table market_rows)) "2025-03-08" (g_sku g)
     /\ 1 <= g_count g)
  /\ NoDup (map g_sku (top_items market_entry)).
Proof.
  apply (top_item_store_count (Table market_rows)
           (blank demo_tape (fun _ => womens_day_2025))
           (consolidate market_rows) (blank demo_tape (fun _ => womens_day_2025))
           "2025-03-08" market_entry).
  - apply consolidation_run.
  - vm_compute. reflexivity.
Defined.

(** The premium rose was forecast by two stores. *)
Example market_store_counts :
  map g_count (top_items market_entry) = [1; 1; 2; 1; 1].
Proof. vm_compute. reflexivity. Qed.

(** ** A manager on the default configuration *)







(** ** Saving and failing *)


